(** * sy-release-dashboard: the two serverless handlers, embedded and verified

    The repository holds two request handlers written for a JavaScript
    serverless runtime:

    - [src/unnamed/part_000] : [/api/releases], lists the release projects of
      an Asana workspace;
    - [src/api/tasks.js]     : [/api/tasks], lists the open tasks of those
      projects that are due within thirty days.

    The development below first embeds the fragment of the JavaScript runtime
    the handlers rely on (module [JS]), then the effects they perform (module
    [Eff]), then each handler as it is written (modules [Releases] and
    [Tasks]).  Module [Spec] holds the notions the statements are phrased
    with, module [Async] the batch loop of [/api/tasks] once more, with the
    points at which its callbacks are suspended and resumed, module [Sample]
    the data of the examples.  The statements follow the definitions. *)

From Stdlib Require Import Ascii String.
From Equations Require Import Equations.
From stdpp Require Import gmap strings list fin_maps pretty sorting.

#[local] Set Warnings "-register-all".
#[local] Open Scope Z_scope.

(** ** The JavaScript values and built-ins used by the handlers *)

Module JS.

(** Values as [JSON.parse] produces them, plus [undefined] (the result of
    reading an absent property).  JSON numbers are kept as integers: the only
    numbers the handlers compute with are HTTP status codes, array lengths and
    millisecond time values, all of them integers that a double holds
    exactly. *)
Inductive value :=
  | Undefined
  | Null
  | Bool (b : bool)
  | Num (n : Z)
  | Str (s : string)
  | Arr (l : list value)
  | Obj (m : gmap string value).

(** Thrown values.  Only [message] is ever read by the handlers. *)
Inductive exn :=
  | Error (msg : string)
  | TypeError (msg : string)
  | SyntaxError (msg : string).

Definition message (e : exn) : string :=
  match e with Error m | TypeError m | SyntaxError m => m end.

(** A computation that either returns or throws. *)
Inductive outcome (A : Type) :=
  | Ret (a : A)
  | Throw (e : exn).
Arguments Ret {A} a.
Arguments Throw {A} e.

#[export] Instance outcome_ret : MRet outcome := @Ret.
#[export] Instance outcome_bind : MBind outcome := λ A B f m,
  match m with Ret a => f a | Throw e => Throw e end.

(** [ToBoolean]. *)
Definition truthy (v : value) : bool :=
  match v with
  | Undefined | Null => false
  | Bool b => b
  | Num n => negb (n =? 0)
  | Str s => negb (String.eqb s "")
  | Arr _ | Obj _ => true
  end.

Definition nullish (v : value) : bool :=
  match v with Undefined | Null => true | _ => false end.

(** [v.k] for a receiver that is known not to be [null] or [undefined].  The
    property names the handlers read ([data], [name], [gid], [archived],
    [due_date], [completed], [due_on]) are defined on no built-in prototype,
    so only an object's own properties can answer. *)
Definition prop (v : value) (k : string) : value :=
  match v with
  | Obj m => default Undefined (m !! k)
  | _ => Undefined
  end.

(** [v.k] in general: reading a property of [null] or [undefined] throws. *)
Definition get_prop (v : value) (k : string) : outcome value :=
  if nullish v
  then Throw (TypeError ("Cannot read properties of " +:+
                match v with Null => "null" | _ => "undefined" end +:+
                " (reading '" +:+ k +:+ "')"))
  else Ret (prop v k).

(** Calling an array method ([filter]) on [v]. *)
Definition as_array (v : value) (method : string) : outcome (list value) :=
  match v with
  | Arr l => Ret l
  | Undefined | Null =>
      Throw (TypeError ("Cannot read properties of " +:+
               match v with Null => "null" | _ => "undefined" end +:+
               " (reading '" +:+ method +:+ "')"))
  | _ => Throw (TypeError (method +:+ " is not a function"))
  end.

(** Calling a string method ([toLowerCase]) on [v]. *)
Definition as_string (v : value) (method : string) : outcome string :=
  match v with
  | Str s => Ret s
  | Undefined | Null =>
      Throw (TypeError ("Cannot read properties of " +:+
               match v with Null => "null" | _ => "undefined" end +:+
               " (reading '" +:+ method +:+ "')"))
  | _ => Throw (TypeError (method +:+ " is not a function"))
  end.

(** [ToString], as template literals apply it. *)
Fixpoint ToString (v : value) : string :=
  match v with
  | Undefined => "undefined"
  | Null => "null"
  | Bool true => "true"
  | Bool false => "false"
  | Num n => pretty n
  | Str s => s
  | Arr l =>
      String.concat ","
        (map (λ x, match x with Undefined | Null => "" | _ => ToString x end) l)
  | Obj _ => "[object Object]"
  end.

(** *** Strings

    Strings are sequences of code units; [toLowerCase] is modelled on the
    ASCII letters and leaves every other code unit alone.  All keywords of the
    handlers are ASCII. *)
Definition lower_ascii (c : ascii) : ascii :=
  let n := N_of_ascii c in
  if ((65 <=? n) && (n <=? 90))%N then ascii_of_N (n + 32) else c.

Fixpoint toLowerCase (s : string) : string :=
  match s with
  | EmptyString => EmptyString
  | String c s' => String (lower_ascii c) (toLowerCase s')
  end.

(** [s.includes(sub)]: [sub] occurs in [s] at some position. *)
Fixpoint includes (s sub : string) : bool :=
  String.prefix sub s ||
  match s with
  | EmptyString => false
  | String _ s' => includes s' sub
  end.

(** [l.some(p)]. *)
Definition some {A} (p : A → bool) (l : list A) : bool := existsb p l.

(** [l.filter(p)] for a callback that may throw. *)
Fixpoint filter {A} (p : A → outcome bool) (l : list A) : outcome (list A) :=
  match l with
  | [] => Ret []
  | x :: l' =>
      b ← p x;
      r ← filter p l';
      mret (if b : bool then x :: r else r)
  end.

(** [l.slice(start, stop)] for indices within [0 .. ] (no negative index is
    used by the handlers). *)
Definition slice {A} (l : list A) (start stop : nat) : list A :=
  take (stop - start) (drop start l).

(** *** Numbers that may be [NaN], and dates

    A [Date] is its time value: milliseconds since the epoch, or [None] for
    an invalid date ([NaN]). *)
Definition number := option Z.

Definition TimeClip (t : Z) : number :=
  if Z.abs t <=? 8640000000000000 then Some t else None.

Definition msPerDay : Z := 86400000.

Definition InLeapYear (y : Z) : bool :=
  ((y mod 4 =? 0) && negb (y mod 100 =? 0)) || (y mod 400 =? 0).

Definition DayFromYear (y : Z) : Z :=
  365 * (y - 1970) + (y - 1969) / 4 - (y - 1901) / 100 + (y - 1601) / 400.

Definition DaysInMonth (y m : Z) : Z :=
  if m =? 2 then (if InLeapYear y then 29 else 28)
  else if (m =? 4) || (m =? 6) || (m =? 9) || (m =? 11) then 30
  else 31.

(** Days from the start of year [y] to the first of month [m] (1-based). *)
Fixpoint DayOfMonthStart (y : Z) (m : nat) : Z :=
  match m with
  | O => 0
  | S O => 0
  | S m' => DayOfMonthStart y m' + DaysInMonth y (Z.of_nat m')
  end.

Definition MakeDate (y m d : Z) : Z :=
  (DayFromYear y + DayOfMonthStart y (Z.to_nat m) + (d - 1)) * msPerDay.

Definition digit (c : ascii) : option Z :=
  let n := Z.of_N (N_of_ascii c) in
  if (48 <=? n) && (n <=? 57) then Some (n - 48) else None.

Definition digits2 (a b : ascii) : option Z :=
  x ← digit a; y ← digit b; Some (10 * x + y).

Definition digits4 (a b c d : ascii) : option Z :=
  x ← digits2 a b; y ← digits2 c d; Some (100 * x + y).

Definition valid_date (y m d : Z) : bool :=
  (1 <=? m) && (m <=? 12) && (1 <=? d) && (d <=? DaysInMonth y m).

(** [Date.parse] on the date-only forms of the ECMAScript date-time format
    ([YYYY], [YYYY-MM], [YYYY-MM-DD]), which are read as UTC midnight.  Asana
    sends [due_on] and [due_date] as [YYYY-MM-DD].  What an engine makes of
    any other string is left to it by the standard; such strings are invalid
    dates here. *)
Definition Date_parse (s : string) : number :=
  match s with
  | String y1 (String y2 (String y3 (String y4 rest))) =>
      y ← digits4 y1 y2 y3 y4;
      match rest with
      | EmptyString => Some (MakeDate y 1 1)
      | String "-" (String m1 (String m2 rest')) =>
          m ← digits2 m1 m2;
          match rest' with
          | EmptyString =>
              if valid_date y m 1 then Some (MakeDate y m 1) else None
          | String "-" (String d1 (String d2 EmptyString)) =>
              d ← digits2 d1 d2;
              if valid_date y m d then Some (MakeDate y m d) else None
          | _ => None
          end
      | _ => None
      end
  | _ => None
  end.

(** [new Date(v)]: a string is parsed, anything else is converted to a number
    of milliseconds. *)
Definition new_Date (v : value) : number :=
  match v with
  | Str s => Date_parse s
  | Undefined => None
  | Null => TimeClip 0
  | Bool b => TimeClip (Z.b2z b)
  | Num n => TimeClip n
  | Arr _ | Obj _ => Date_parse (ToString v)
  end.

(** [a - b], [a >= b] and [a <= b] on time values; a comparison with [NaN]
    is false. *)
Definition minus (a b : number) : number :=
  x ← a; y ← b; Some (x - y).

Definition ge (a b : number) : bool :=
  match a, b with Some x, Some y => y <=? x | _, _ => false end.

Definition le (a b : number) : bool :=
  match a, b with Some x, Some y => x <=? y | _, _ => false end.

(** *** [Array.prototype.sort]

    The sort is stable.  A comparator result that is [NaN] counts as [0]; a
    positive result puts the second argument first.  For a comparator that
    is a consistent ordering, every conforming engine returns the same list:
    the one that the stable insertion sort below computes. *)
Definition SortCompare {A} (comparefn : A → A → number) (x y : A) : Z :=
  default 0 (comparefn x y).

Fixpoint insert {A} (comparefn : A → A → number) (x : A) (l : list A) : list A :=
  match l with
  | [] => [x]
  | y :: l' =>
      if 0 <? SortCompare comparefn x y
      then y :: insert comparefn x l'
      else x :: y :: l'
  end.

Fixpoint sort {A} (comparefn : A → A → number) (l : list A) : list A :=
  match l with
  | [] => []
  | x :: l' => insert comparefn x (sort comparefn l')
  end.

(** *** Object spread

    [{...v}] copies the own enumerable properties of [v]: those of an object,
    the indices of an array or of a string, none for the other primitives. *)
Definition spread (v : value) : gmap string value :=
  match v with
  | Obj m => m
  | Arr l => list_to_map (imap (λ i x, (pretty i, x)) l)
  | Str s =>
      list_to_map
        (imap (λ i c, (pretty i, Str (String c EmptyString)))
              (list_ascii_of_string s))
  | _ => ∅
  end.

End JS.
Export JS.

(** ** Effects: the response object, the upstream API, the clock *)

Module Eff.

(** What [fetch] resolves to.  [ok] is derived from the status as the Fetch
    standard defines it; [json] is the outcome of [response.json()], which
    rejects when the body is not JSON. *)
Record response := {
  status : Z;
  statusText : string;
  json : outcome value
}.

Definition ok (r : response) : bool :=
  (200 <=? status r) && (status r <=? 299).

Inductive fetch_result :=
  | Rejected (e : exn)
  | Resolved (r : response).

(** Everything outside the handler that one invocation reads: the process
    environment, the upstream API as a function of the requested URL, the
    clock value that [new Date()] yields when the tasks handler computes its
    window, and the text that [new Date().toISOString()] yields when the
    response envelope is built. *)
Record world := {
  process_env : gmap string string;
  upstream : string → fetch_result;
  today : Z;
  timestamp : string
}.

(** [process.env.k]: a string, or [undefined]. *)
Definition env (w : world) (k : string) : value :=
  match process_env w !! k with
  | Some s => Str s
  | None => Undefined
  end.

Record request := { method : string }.

(** The calls that leave the handler. *)
Inductive event :=
  | Fetch (url : string) (headers : list (string * string))
  | Sleep (ms : Z).

(** The response object [res] (the headers the handler sets, the status, and
    what was sent: nothing yet, an empty body, or a JSON body, kept as the
    value handed to [res.json]) together with the trace of outgoing calls.
    Console output is not part of the model. *)
Record state := {
  headers : gmap string string;
  statusCode : Z;
  sent : option (option value);
  trace : list event
}.

Definition init : state :=
  {| headers := ∅; statusCode := 200; sent := None; trace := [] |}.

(** State and exceptions.  A throw keeps the state reached so far. *)
Definition M (A : Type) : Type := state → outcome A * state.

#[export] Instance M_ret : MRet M := λ A a s, (Ret a, s).
#[export] Instance M_bind : MBind M := λ A B f m s,
  match m s with
  | (Ret a, s') => f a s'
  | (Throw e, s') => (Throw e, s')
  end.

Definition lift {A} (o : outcome A) : M A := λ s, (o, s).

Definition throw {A} (e : exn) : M A := λ s, (Throw e, s).

Definition try_catch {A} (body : M A) (handler : exn → M A) : M A := λ s,
  match body s with
  | (Ret a, s') => (Ret a, s')
  | (Throw e, s') => handler e s'
  end.

(** The state after the outgoing calls [evs]. *)
Definition record (evs : list event) (s : state) : state :=
  {| headers := headers s; statusCode := statusCode s;
     sent := sent s; trace := trace s ++ evs |}.

Definition emit (ev : event) : M unit := λ s, (Ret tt, record [ev] s).

Definition setHeader (k v : string) : M unit := λ s,
  (Ret tt, {| headers := <[k:=v]> (headers s); statusCode := statusCode s;
              sent := sent s; trace := trace s |}).

Definition set_status (c : Z) : M unit := λ s,
  (Ret tt, {| headers := headers s; statusCode := c;
              sent := sent s; trace := trace s |}).

Definition send (b : option value) : M unit := λ s,
  (Ret tt, {| headers := headers s; statusCode := statusCode s;
              sent := Some b; trace := trace s |}).

(** [res.status(c).end()] and [res.status(c).json(v)]. *)
Definition status_end (c : Z) : M unit := set_status c;; send None.
Definition status_json (c : Z) (v : value) : M unit := set_status c;; send (Some v).

(** [await fetch(url, {headers})]. *)
Definition fetch (w : world) (url : string) (hs : list (string * string)) : M response :=
  emit (Fetch url hs);;
  match upstream w url with
  | Rejected e => throw e
  | Resolved r => mret r
  end.

(** [await new Promise(resolve => setTimeout(resolve, ms))]. *)
Definition sleep (ms : Z) : M unit := emit (Sleep ms).

(** [await Promise.all(ps)]: the results in the order of [ps], whichever
    promise settles first.  Each promise the tasks handler passes is an async
    function run up to its [fetch]; what follows the [fetch] in it is free of
    outgoing calls, so running the promises one after the other yields the
    same trace (the requests of the window, in order) and the same results.
    Module [Async] below has the suspensions and the order in which the
    answers come in. *)
Fixpoint Promise_all {A} (ps : list (M A)) : M (list A) :=
  match ps with
  | [] => mret []
  | p :: ps' => x ← p; xs ← Promise_all ps'; mret (x :: xs)
  end.

(** Running a handler from the fresh response object. *)
Definition run (h : M unit) : state := (h init).2.

End Eff.
Export Eff.

(** ** [/api/releases] (src/unnamed/part_000) *)

Module Releases.

Definition releaseKeywords : list string :=
  [ "release"; "ep"; "single"; "album";
    "[ep"; "[single"; "[album"; "[release";
    "EP Release"; "Single Release"; "Album Release" ].

(** The callback of [projectsData.data.filter]. *)
Definition isReleaseProject (project : value) : outcome bool :=
  archived ← get_prop project "archived";
  if truthy archived then mret false else
  s ← as_string (prop project "name") "toLowerCase";
  let name := toLowerCase s in
  mret (some (λ keyword, includes name (toLowerCase keyword)) releaseKeywords).

(** The comparator of [releaseProjects.sort].  Its arguments passed the
    filter, so they are not nullish and [prop] reads them. *)
Definition compare (a b : value) : number :=
  if negb (truthy (prop a "due_date")) && negb (truthy (prop b "due_date"))
  then Some 0
  else if negb (truthy (prop a "due_date")) then Some 1
  else if negb (truthy (prop b "due_date")) then Some (-1)
  else minus (new_Date (prop a "due_date")) (new_Date (prop b "due_date")).

Definition projects_url (WORKSPACE_ID : value) : string :=
  "https://app.asana.com/api/1.0/projects?workspace=" +:+ ToString WORKSPACE_ID +:+
  "&opt_fields=name,due_date,created_at,owner.name,notes,archived".

Definition request_headers (ASANA_TOKEN : value) : list (string * string) :=
  [ ("Authorization", "Bearer " +:+ ToString ASANA_TOKEN);
    ("Content-Type", "application/json") ].

(** The [try] block. *)
Definition try_body (w : world) : M unit :=
  let ASANA_TOKEN := env w "ASANA_TOKEN" in
  let WORKSPACE_ID := env w "ASANA_WORKSPACE_ID" in
  if negb (truthy ASANA_TOKEN) || negb (truthy WORKSPACE_ID)
  then throw (Error "Missing environment variables")
  else
    projectsResponse ← fetch w (projects_url WORKSPACE_ID) (request_headers ASANA_TOKEN);
    if negb (ok projectsResponse)
    then throw (Error ("Asana API error: " +:+ pretty (status projectsResponse) +:+
                       " " +:+ statusText projectsResponse))
    else
      projectsData ← lift (json projectsResponse);
      data ← lift (get_prop projectsData "data");
      projects ← lift (as_array data "filter");
      releaseProjects ← lift (JS.filter isReleaseProject projects);
      let releaseProjects := sort compare releaseProjects in
      status_json 200 (Obj (list_to_map
        [ ("success", Bool true);
          ("projects", Arr releaseProjects);
          ("count", Num (Z.of_nat (length releaseProjects)));
          ("timestamp", Str (timestamp w)) ])).

(** The [catch] block. *)
Definition catch_body (w : world) (error : exn) : M unit :=
  status_json 500 (Obj (list_to_map
    [ ("success", Bool false);
      ("error", Str (message error));
      ("timestamp", Str (timestamp w)) ])).

Definition handler (w : world) (req : request) : M unit :=
  setHeader "Access-Control-Allow-Origin" "*";;
  setHeader "Access-Control-Allow-Methods" "GET, OPTIONS";;
  setHeader "Access-Control-Allow-Headers" "Content-Type";;
  if String.eqb (method req) "OPTIONS" then status_end 200
  else if negb (String.eqb (method req) "GET")
  then status_json 405 (Obj {[ "error" := Str "Method not allowed" ]})
  else try_catch (try_body w) (catch_body w).

End Releases.

(** ** [/api/tasks] (src/api/tasks.js) *)

Module Tasks.

Definition releaseKeywords : list string :=
  [ "release"; "ep"; "single"; "album";
    "[ep"; "[single"; "[album"; "[release" ].

(** The callback of [projectsData.data.filter]. *)
Definition isReleaseProject (project : value) : outcome bool :=
  name0 ← get_prop project "name";
  s ← as_string name0 "toLowerCase";
  let name := toLowerCase s in
  mret (some (λ keyword, includes name (toLowerCase keyword)) releaseKeywords).

Definition projects_url (WORKSPACE_ID : value) : string :=
  "https://app.asana.com/api/1.0/projects?workspace=" +:+ ToString WORKSPACE_ID +:+
  "&opt_fields=name,due_date".

Definition tasks_url (gid : value) : string :=
  "https://app.asana.com/api/1.0/projects/" +:+ ToString gid +:+
  "/tasks?opt_fields=name,due_on,assignee.name,completed,created_at,notes".

Definition request_headers (ASANA_TOKEN : value) : list (string * string) :=
  [ ("Authorization", "Bearer " +:+ ToString ASANA_TOKEN);
    ("Content-Type", "application/json") ].

(** [new Date(today.getTime() + (30 * 24 * 60 * 60 * 1000))]. *)
Definition thirtyDaysFromNow (today : Z) : number :=
  TimeClip (today + 30 * 24 * 60 * 60 * 1000).

(** The callback of [tasksData.data.filter]. *)
Definition isUpcoming (today : Z) (task : value) : outcome bool :=
  completed ← get_prop task "completed";
  if truthy completed then mret false else
  if negb (truthy (prop task "due_on")) then mret false else
  let dueDate := new_Date (prop task "due_on") in
  mret (ge dueDate (Some today) && le dueDate (thirtyDaysFromNow today)).

(** The callback of [upcomingTasks.map]:
    [{...task, project_name, project_gid, project_due_date}]. *)
Definition annotate (project task : value) : value :=
  Obj (<["project_due_date" := prop project "due_date"]>
      (<["project_gid" := prop project "gid"]>
      (<["project_name" := prop project "name"]>
      (spread task)))).

(** The async callback of [batch.map]: one project's upcoming tasks, or the
    empty list when the fetch or anything after it fails. *)
Definition project_tasks (w : world) (ASANA_TOKEN : value) (project : value)
    : M (list value) :=
  try_catch
    (tasksResponse ← fetch w (tasks_url (prop project "gid")) (request_headers ASANA_TOKEN);
     if negb (ok tasksResponse) then mret []
     else
       tasksData ← lift (json tasksResponse);
       data ← lift (get_prop tasksData "data");
       tasks ← lift (as_array data "filter");
       upcomingTasks ← lift (JS.filter (isUpcoming (today w)) tasks);
       mret (map (annotate project) upcomingTasks))
    (λ error, mret []).

Definition batchSize : nat := 5.

(** The [for] loop over the batches, at index [i] with [allTasks] gathered so
    far. *)
Equations? batches (w : world) (ASANA_TOKEN : value) (releaseProjects : list value)
    (i : nat) (allTasks : list value) : M (list value)
    by wf (length releaseProjects - i)%nat lt :=
  batches w ASANA_TOKEN releaseProjects i allTasks
    with decide (i < length releaseProjects)%nat => {
    | left _ =>
        let batch := slice releaseProjects i (i + batchSize) in
        batchResults ← Promise_all (map (project_tasks w ASANA_TOKEN) batch);
        let allTasks := foldl (λ acc tasks, acc ++ tasks) allTasks batchResults in
        (if decide (i + batchSize < length releaseProjects)%nat
         then sleep 100 else mret tt);;
        batches w ASANA_TOKEN releaseProjects (i + batchSize)%nat allTasks
    | right _ => mret allTasks }.
Proof. unfold batchSize. lia. Qed.

(** The comparator of [allTasks.sort]. *)
Definition compare (a b : value) : number :=
  minus (new_Date (prop a "due_on")) (new_Date (prop b "due_on")).

(** The [try] block. *)
Definition try_body (w : world) : M unit :=
  let ASANA_TOKEN := env w "ASANA_TOKEN" in
  let WORKSPACE_ID := env w "ASANA_WORKSPACE_ID" in
  if negb (truthy ASANA_TOKEN) || negb (truthy WORKSPACE_ID)
  then throw (Error "Missing environment variables")
  else
    projectsResponse ← fetch w (projects_url WORKSPACE_ID) (request_headers ASANA_TOKEN);
    if negb (ok projectsResponse)
    then throw (Error ("Asana API error: " +:+ pretty (status projectsResponse)))
    else
      projectsData ← lift (json projectsResponse);
      data ← lift (get_prop projectsData "data");
      projects ← lift (as_array data "filter");
      releaseProjects ← lift (JS.filter isReleaseProject projects);
      allTasks ← batches w ASANA_TOKEN releaseProjects 0 [];
      let allTasks := sort compare allTasks in
      status_json 200 (Obj (list_to_map
        [ ("success", Bool true);
          ("tasks", Arr allTasks);
          ("count", Num (Z.of_nat (length allTasks)));
          ("projects_processed", Num (Z.of_nat (length releaseProjects)));
          ("timestamp", Str (timestamp w)) ])).

(** The [catch] block. *)
Definition catch_body (w : world) (error : exn) : M unit :=
  status_json 500 (Obj (list_to_map
    [ ("success", Bool false);
      ("error", Str (message error));
      ("timestamp", Str (timestamp w)) ])).

Definition handler (w : world) (req : request) : M unit :=
  setHeader "Access-Control-Allow-Origin" "*";;
  setHeader "Access-Control-Allow-Methods" "GET, OPTIONS";;
  setHeader "Access-Control-Allow-Headers" "Content-Type";;
  if String.eqb (method req) "OPTIONS" then status_end 200
  else if negb (String.eqb (method req) "GET")
  then status_json 405 (Obj {[ "error" := Str "Method not allowed" ]})
  else try_catch (try_body w) (catch_body w).

End Tasks.

(** ** The notions the statements are phrased with *)

Module Spec.

(** The three CORS headers both handlers set first. *)
Definition cors_headers : gmap string string :=
  <["Access-Control-Allow-Headers" := "Content-Type"]>
  (<["Access-Control-Allow-Methods" := "GET, OPTIONS"]>
  (<["Access-Control-Allow-Origin" := "*"]> ∅)).

(** The error envelope of both [catch] blocks. *)
Definition failure (w : world) (msg : string) : value :=
  Obj (list_to_map
    [ ("success", Bool false); ("error", Str msg); ("timestamp", Str (timestamp w)) ]).

(** The response object once the CORS headers are set, nothing sent yet. *)
Definition opened : state :=
  {| headers := cors_headers; statusCode := 200; sent := None; trace := [] |}.

(** A response as the client sees it. *)
Definition responded (code : Z) (body : option value) (evs : list event) : state :=
  {| headers := cors_headers; statusCode := code; sent := Some body; trace := evs |}.

(** Consecutive chunks of [size] elements; the last one may be shorter. *)
Equations? chunks {A} (size : nat) (l : list A) : list (list A) by wf (length l) lt :=
  chunks size [] := [];
  chunks size (x :: l) := take size (x :: l) :: chunks size (drop (Nat.pred size) l).
Proof. rewrite length_drop. simpl. lia. Qed.

(** What a task list yields once it was fetched with success: the upcoming
    tasks, unless the body is not JSON, has no [data] array, or holds an
    entry the filter cannot read. *)
Definition upcoming (w : world) (r : response) : outcome (list value) :=
  tasksData ← json r;
  data ← get_prop tasksData "data";
  tasks ← as_array data "filter";
  JS.filter (Tasks.isUpcoming (today w)) tasks.

(** What one project contributes to the task list: its upcoming tasks,
    annotated, when its task fetch succeeds; nothing otherwise. *)
Definition upcoming_of (w : world) (project : value) : list value :=
  match upstream w (Tasks.tasks_url (prop project "gid")) with
  | Rejected _ => []
  | Resolved r =>
      if ok r then
        match upcoming w r with
        | Ret upcomingTasks => map (Tasks.annotate project) upcomingTasks
        | Throw _ => []
        end
      else []
  end.

(** What the project list yields once it was fetched with success: the
    release projects, unless the body is not JSON, has no [data] array, or
    holds an entry the classifier cannot read. *)
Definition listed (isReleaseProject : value → outcome bool) (r : response)
    : outcome (list value) :=
  projectsData ← json r;
  data ← get_prop projectsData "data";
  projects ← as_array data "filter";
  JS.filter isReleaseProject projects.

(** The success envelopes. *)
Definition releases_success (w : world) (releaseProjects : list value) : value :=
  Obj (list_to_map
    [ ("success", Bool true);
      ("projects", Arr releaseProjects);
      ("count", Num (Z.of_nat (length releaseProjects)));
      ("timestamp", Str (timestamp w)) ]).

Definition tasks_success (w : world) (allTasks : list value) (processed : nat) : value :=
  Obj (list_to_map
    [ ("success", Bool true);
      ("tasks", Arr allTasks);
      ("count", Num (Z.of_nat (length allTasks)));
      ("projects_processed", Num (Z.of_nat processed));
      ("timestamp", Str (timestamp w)) ]).

(** A project whose task fetch fails: the request is rejected, is answered
    with a status outside 200..299, or handling the answer throws. *)
Definition task_fetch_fails (w : world) (project : value) : Prop :=
  match upstream w (Tasks.tasks_url (prop project "gid")) with
  | Rejected _ => True
  | Resolved r => ok r = false ∨ ∃ e, upcoming w r = Throw e
  end.

(** The task requests of one window. *)
Definition window (ASANA_TOKEN : value) (batch : list value) : list event :=
  map (λ project, Fetch (Tasks.tasks_url (prop project "gid"))
                        (Tasks.request_headers ASANA_TOKEN)) batch.

(** The requests of successive windows, with a 100ms pause between two
    windows and none after the last. *)
Fixpoint windows (ASANA_TOKEN : value) (batches : list (list value)) : list event :=
  match batches with
  | [] => []
  | [batch] => window ASANA_TOKEN batch
  | batch :: rest => window ASANA_TOKEN batch ++ Sleep 100 :: windows ASANA_TOKEN rest
  end.

(** The due date of a task or project as the comparators read it. *)
Definition task_due (t : value) : number := new_Date (prop t "due_on").





Definition task_le (a b : value) : Prop := le (task_due a) (task_due b) = true.

(** The start of the UTC day that holds the instant [t]. *)
Definition UTCDay (t : Z) : Z := t / msPerDay * msPerDay.

End Spec.
Export Spec.

(** ** The batched fetcher, with its suspension points *)

Module Async.

(** One entry of the log: an outgoing call (a [fetch] is called, the timer is
    set), or the event loop resumes the [j]-th callback of the current batch
    with what it awaited. *)
Inductive step :=
  | Out (ev : event)
  | Resumed (j : nat).

(** The log, and the number of turns the event loop has taken. *)
Record state := { clock : nat; log : list step }.

Definition init : state := {| clock := 0; log := [] |}.

Definition M (A : Type) : Type := state → A * state.

#[global] Instance M_ret : MRet M := λ A a s, (a, s).
#[global] Instance M_bind : MBind M := λ A B f m s,
  let (a, s') := m s in f a s'.

Definition emit (st : step) : M unit := λ s,
  (tt, {| clock := clock s; log := log s ++ [st] |}).

(** Where a call of the async callback of [batch.map] (tasks.js:69-113)
    stands: suspended at [await fetch(...)] (line 71), suspended at
    [await tasksResponse.json()] (line 86), or returned. *)
Inductive thread :=
  | Fetching (project : value) (url : string)
  | Reading (project : value) (tasksResponse : response)
  | Fulfilled (tasks : list value).

(** The callback is called: it runs up to its first [await], that is, it
    calls [fetch]. *)
Definition call (ASANA_TOKEN project : value) : M thread :=
  let url := Tasks.tasks_url (prop project "gid") in
  emit (Out (Fetch url (Tasks.request_headers ASANA_TOKEN)));;
  mret (Fetching project url).

(** The callback is resumed with what it awaited and runs up to its next
    [await] or to its end; whatever is thrown on the way is caught. *)
Definition resume (w : world) (th : thread) : thread :=
  match th with
  | Fetching project url =>
      match upstream w url with
      | Rejected error => Fulfilled []
      | Resolved tasksResponse =>
          if negb (ok tasksResponse) then Fulfilled []
          else Reading project tasksResponse
      end
  | Reading project tasksResponse =>
      match
        tasksData ← json tasksResponse;
        data ← get_prop tasksData "data";
        tasks ← as_array data "filter";
        upcomingTasks ← JS.filter (Tasks.isUpcoming (today w)) tasks;
        mret (map (Tasks.annotate project) upcomingTasks)
      with
      | Ret tasks => Fulfilled tasks
      | Throw error => Fulfilled []
      end
  | Fulfilled tasks => Fulfilled tasks
  end.

Definition settled (th : thread) : bool :=
  match th with Fulfilled _ => true | _ => false end.

(** The callbacks that wait to be resumed, by position. *)
Definition pending (threads : list thread) : list nat :=
  List.filter
    (λ j, match threads !! j with Some th => negb (settled th) | None => false end)
    (seq 0 (length threads)).

(** The pending callback that is resumed next: the order in which the
    awaited results come in is not in the hands of the program; [n] stands
    for it. *)
Definition chosen (n : nat) (js : list nat) : option nat :=
  js !! (n mod length js)%nat.

(** The [await]s a callback can still be suspended at. *)
Definition suspensions (th : thread) : nat :=
  match th with Fetching _ _ => 2 | Reading _ _ => 1 | Fulfilled _ => 0 end.

Definition result (th : thread) : list value :=
  match th with Fulfilled tasks => tasks | _ => [] end.

(** [await Promise.all(batchPromises)] (tasks.js:115): the event loop
    resumes one pending callback per turn, the one [schedule] names at that
    turn, until none is pending; then the handler goes on with the results,
    in the order of [batchPromises]. *)
Equations? Promise_all (w : world) (schedule : nat → nat) (threads : list thread)
    (s : state) : list (list value) * state
    by wf (sum_list (suspensions <$> threads)) lt :=
  Promise_all w schedule threads s
    with Equations.Prop.Logic.inspect (chosen (schedule (clock s)) (pending threads)) => {
    | exist _ (Some j) _ =>
        Promise_all w schedule (alter (resume w) j threads)
          {| clock := S (clock s); log := log s ++ [Resumed j] |}
    | exist _ None _ => (result <$> threads, s) }.
Proof.
  apply list_elem_of_lookup_2, list_elem_of_In, filter_In in e.
  destruct e as [_ e]. clear - e. unfold sum_list.
  revert j e. induction threads as [|th threads IH]; intros [|j] e; try done.
  - cbn in e. cbn [alter list_alter fmap list_fmap sum_list_with]. unfold id.
    enough (suspensions (resume w th) < suspensions th)%nat by lia.
    destruct th as [p url|p r|l]; cbn in *; [| | done].
    + destruct (upstream w url) as [|r]; cbn; [lia |].
      destruct (negb (ok r)); cbn; lia.
    + match goal with |- context [match ?o with Ret _ => _ | Throw _ => _ end] =>
        destruct o end; cbn; lia.
  - cbn in e. specialize (IH j e).
    cbn [alter list_alter fmap list_fmap sum_list_with].
    apply Nat.add_lt_mono_l. exact IH.
Qed.

Definition batchSize : nat := 5.

(** The [for] loop (tasks.js:65-122): the callbacks of a batch are all
    called, then all awaited, then comes the pause. *)
Equations? batches (w : world) (schedule : nat → nat) (ASANA_TOKEN : value)
    (releaseProjects : list value) (i : nat) (allTasks : list value)
    : M (list value) by wf (length releaseProjects - i)%nat lt :=
  batches w schedule ASANA_TOKEN releaseProjects i allTasks
    with decide (i < length releaseProjects)%nat => {
    | left _ =>
        let batch := slice releaseProjects i (i + batchSize) in
        batchPromises ← mapM (call ASANA_TOKEN) batch;
        batchResults ← Promise_all w schedule batchPromises;
        let allTasks := foldl (λ acc tasks, acc ++ tasks) allTasks batchResults in
        (if decide (i + batchSize < length releaseProjects)%nat
         then emit (Out (Sleep 100)) else mret tt);;
        batches w schedule ASANA_TOKEN releaseProjects (i + batchSize)%nat allTasks
    | right _ => mret allTasks }.
Proof. unfold batchSize. lia. Qed.

(** *** The notions the statement about the loop is phrased with *)






(** The log of successive windows: of each window first all its requests, in
    the order of the projects, then the resumptions of its callbacks, then
    the pause of 100ms unless the window is the last. *)
Fixpoint windows (ASANA_TOKEN : value) (batches : list (list value))
    (turns : list (list nat)) : list step :=
  match batches, turns with
  | batch :: batches, js :: turns =>
      map Out (window ASANA_TOKEN batch) ++ map Resumed js ++
      match batches with
      | [] => []
      | _ => Out (Sleep 100) :: windows ASANA_TOKEN batches turns
      end
  | _, _ => []
  end.

End Async.

(** ** Sample data for the examples *)

Module Sample.

Definition project (gid name : string) (due_date : value) (archived : bool) : value :=
  Obj (list_to_map
    [ ("gid", Str gid); ("name", Str name); ("due_date", due_date);
      ("archived", Bool archived) ]).

Definition task (gid : string) (due_on : value) (completed : bool) : value :=
  Obj (list_to_map
    [ ("gid", Str gid); ("name", Str ("task " +:+ gid)); ("due_on", due_on);
      ("completed", Bool completed) ]).

Definition replied (v : value) : fetch_result :=
  Resolved {| status := 200; statusText := "OK"; json := Ret v |}.

Definition failed (code : Z) (text : string) : fetch_result :=
  Resolved {| status := code; statusText := text;
              json := Throw (SyntaxError "Unexpected end of JSON input") |}.

Definition data (l : list value) : value := Obj {[ "data" := Arr l ]}.

Definition configured : gmap string string :=
  list_to_map [ ("ASANA_TOKEN", "secret"); ("ASANA_WORKSPACE_ID", "42") ].

Definition GET : request := {| method := "GET" |}.

(** Noon (UTC) of 2024-01-01. *)
Definition noon : Z := 1704110400000.

Definition summer_ep : value := project "1" "Summer EP" (Str "2024-03-01") false.
Definition website : value := project "3" "Website" Null false.
Definition winter_single : value := project "4" "Winter Single" (Str "2024-01-20") false.

(** An archived release project, and the same project as the project list of
    the tasks handler delivers it: that request asks for [name] and
    [due_date] only. *)
Definition old_album : value := project "2" "Old Album" Null true.
Definition old_album_as_listed : value :=
  Obj (list_to_map
    [ ("gid", Str "2"); ("name", Str "Old Album"); ("due_date", Null) ]).

(** A workspace with two live release projects; the task fetch of the
    first succeeds, that of the second is answered 429. *)
Definition workspace : world := {|
  process_env := configured;
  upstream := λ url,
    if String.eqb url (Tasks.projects_url (Str "42"))
    then replied (data [summer_ep; website; winter_single])
    else if String.eqb url (Tasks.tasks_url (Str "1"))
    then replied (data [ task "11" (Str "2024-01-05") false;
                         task "12" (Str "2024-01-02") false;
                         task "13" Null false;
                         task "14" (Str "2024-01-03") true;
                         task "15" (Str "2024-03-01") false ])
    else failed 429 "Too Many Requests";
  today := noon;
  timestamp := "2024-01-01T12:00:03.000Z"
|}.

(** The same workspace when the project list itself is refused. *)
Definition refused : world := {|
  process_env := configured;
  upstream := λ _, failed 401 "Unauthorized";
  today := noon;
  timestamp := "2024-01-01T12:00:03.000Z"
|}.

(** No workspace identifier configured. *)
Definition unconfigured : world := {|
  process_env := list_to_map [ ("ASANA_TOKEN", "secret") ];
  upstream := λ _, replied (data []);
  today := noon;
  timestamp := "2024-01-01T12:00:03.000Z"
|}.

(** A task due on the calendar day of [noon]. *)
Definition due_today : value := task "21" (Str "2024-01-01") false.

End Sample.

(** ** What can be observed of a run *)

Module Obs.



(** The callback [p] returns [true] on [x]. *)
Definition passes {A} (p : A → outcome bool) (x : A) : bool :=
  match p x with Ret true => true | _ => false end.

(** The callback [p] returns on [x] (it does not throw). *)
Definition readable {A} (p : A → outcome bool) (x : A) : Prop :=
  ∃ b, p x = Ret b.

(** An entry without a name that is a string. *)
Definition unnamed (P : value) : Prop := ∀ s, prop P "name" ≠ Str s.

(** The address every request of the handlers starts with. *)
Definition api_projects : string := "https://app.asana.com/api/1.0/projects".

(** An outgoing call as the handlers are meant to make it: a request to the
    projects API that carries the bearer token, or a pause of 100ms. *)
Definition authorised (w : world) (ev : event) : Prop :=
  match ev with
  | Fetch url hs =>
      truthy (env w "ASANA_TOKEN") = true ∧
      String.prefix api_projects url = true ∧
      hs = [ ("Authorization", "Bearer " +:+ ToString (env w "ASANA_TOKEN"));
             ("Content-Type", "application/json") ]
  | Sleep ms => ms = 100
  end.

(** The string is a calendar date in the form [YYYY-MM-DD], the form in
    which the upstream API sends [due_on]. *)
Definition date_only (s : string) : bool :=
  match s with
  | String y1 (String y2 (String y3 (String y4 (String "-" (String m1 (String m2
      (String "-" (String d1 (String d2 EmptyString))))))))) =>
      match digits4 y1 y2 y3 y4, digits2 m1 m2, digits2 d1 d2 with
      | Some y, Some m, Some d => valid_date y m d
      | _, _, _ => false
      end
  | _ => false
  end.

(** The task [t] is due at the instant [d]. *)
Definition due_at (d : Z) (t : value) : bool := bool_decide (task_due t = Some d).

(** The shapes a response of the tasks handler can take. *)
Inductive tasks_outcome (w : world) (req : request) : state → Prop :=
  | tasks_preflight :
      method req = "OPTIONS" →
      tasks_outcome w req (responded 200 None [])
  | tasks_refused :
      method req ≠ "OPTIONS" → method req ≠ "GET" →
      tasks_outcome w req
        (responded 405 (Some (Obj {[ "error" := Str "Method not allowed" ]})) [])
  | tasks_unconfigured :
      method req = "GET" →
      truthy (env w "ASANA_TOKEN") = false ∨
        truthy (env w "ASANA_WORKSPACE_ID") = false →
      tasks_outcome w req
        (responded 500 (Some (failure w "Missing environment variables")) [])
  | tasks_failed (e : exn) :
      method req = "GET" →
      truthy (env w "ASANA_TOKEN") = true →
      truthy (env w "ASANA_WORKSPACE_ID") = true →
      tasks_outcome w req
        (responded 500 (Some (failure w (message e)))
           [Fetch (Tasks.projects_url (env w "ASANA_WORKSPACE_ID"))
                  (Tasks.request_headers (env w "ASANA_TOKEN"))])
  | tasks_listed (r : response) (releaseProjects : list value) :
      method req = "GET" →
      truthy (env w "ASANA_TOKEN") = true →
      truthy (env w "ASANA_WORKSPACE_ID") = true →
      upstream w (Tasks.projects_url (env w "ASANA_WORKSPACE_ID")) = Resolved r →
      ok r = true →
      listed Tasks.isReleaseProject r = Ret releaseProjects →
      tasks_outcome w req
        (responded 200
           (Some (tasks_success w
              (sort Tasks.compare (concat (map (upcoming_of w) releaseProjects)))
              (length releaseProjects)))
           (Fetch (Tasks.projects_url (env w "ASANA_WORKSPACE_ID"))
                  (Tasks.request_headers (env w "ASANA_TOKEN"))
              :: windows (env w "ASANA_TOKEN") (chunks 5 releaseProjects))).

(** The shapes a response of the releases handler can take. *)
Inductive releases_outcome (w : world) (req : request) : state → Prop :=
  | releases_preflight :
      method req = "OPTIONS" →
      releases_outcome w req (responded 200 None [])
  | releases_refused :
      method req ≠ "OPTIONS" → method req ≠ "GET" →
      releases_outcome w req
        (responded 405 (Some (Obj {[ "error" := Str "Method not allowed" ]})) [])
  | releases_unconfigured :
      method req = "GET" →
      truthy (env w "ASANA_TOKEN") = false ∨
        truthy (env w "ASANA_WORKSPACE_ID") = false →
      releases_outcome w req
        (responded 500 (Some (failure w "Missing environment variables")) [])
  | releases_failed (e : exn) :
      method req = "GET" →
      truthy (env w "ASANA_TOKEN") = true →
      truthy (env w "ASANA_WORKSPACE_ID") = true →
      releases_outcome w req
        (responded 500 (Some (failure w (message e)))
           [Fetch (Releases.projects_url (env w "ASANA_WORKSPACE_ID"))
                  (Releases.request_headers (env w "ASANA_TOKEN"))])
  | releases_listed (r : response) (releaseProjects : list value) :
      method req = "GET" →
      truthy (env w "ASANA_TOKEN") = true →
      truthy (env w "ASANA_WORKSPACE_ID") = true →
      upstream w (Releases.projects_url (env w "ASANA_WORKSPACE_ID")) = Resolved r →
      ok r = true →
      listed Releases.isReleaseProject r = Ret releaseProjects →
      releases_outcome w req
        (responded 200
           (Some (releases_success w (sort Releases.compare releaseProjects)))
           [Fetch (Releases.projects_url (env w "ASANA_WORKSPACE_ID"))
                  (Releases.request_headers (env w "ASANA_TOKEN"))]).

End Obs.
Export Obs.

(** ** Further sample data *)

Module Cases.

(** The network is down: every request is rejected. *)
Definition offline : world := {|
  process_env := Sample.configured;
  upstream := λ _, Rejected (TypeError "fetch failed");
  today := Sample.noon;
  timestamp := "2024-01-01T12:00:03.000Z"
|}.

(** A project that came without a name. *)
Definition nameless : value :=
  Obj (list_to_map [ ("gid", Str "6"); ("due_date", Null) ]).

(** A workspace whose project list holds a project without a name; the list
    is the answer to the request of either handler. *)
Definition with_nameless : world := {|
  process_env := Sample.configured;
  upstream := λ _, Sample.replied (Sample.data [Sample.summer_ep; nameless]);
  today := Sample.noon;
  timestamp := "2024-01-01T12:00:03.000Z"
|}.

(** The project list as the releases handler is sent it. *)
Definition projects : list value :=
  [ Sample.summer_ep; Sample.website; Sample.old_album; Sample.winter_single ].




Definition tasks_reply (tasks : list value) : response :=
  {| status := 200; statusText := "OK"; json := Ret (Sample.data tasks) |}.


(** Two tasks due the same day, and one due earlier. *)
Definition same_day : list value :=
  [ Sample.task "41" (Str "2024-01-09") false;
    Sample.task "42" (Str "2024-01-04") false;
    Sample.task "43" (Str "2024-01-09") false ].

(** A workspace with one release project whose tasks are [same_day]. *)
Definition same_day_workspace : world := {|
  process_env := Sample.configured;
  upstream := λ url,
    if String.eqb url (Tasks.projects_url (Str "42"))
    then Sample.replied (Sample.data [Sample.summer_ep])
    else Resolved (tasks_reply same_day);
  today := Sample.noon;
  timestamp := "2024-01-01T12:00:03.000Z"
|}.

(** A workspace without any release project. *)
Definition empty_workspace : world := {|
  process_env := Sample.configured;
  upstream := λ _, Sample.replied (Sample.data [Sample.website]);
  today := Sample.noon;
  timestamp := "2024-01-01T12:00:03.000Z"
|}.

End Cases.

(** * Statements *)

(** ** Strings and the keyword test *)

Lemma append_nil (b : string) : "" +:+ b = b.
Proof. reflexivity. Qed.

Lemma append_cons (c : ascii) (a b : string) :
  String c a +:+ b = String c (a +:+ b).
Proof. reflexivity. Qed.

Lemma append_assoc (a b c : string) : (a +:+ b) +:+ c = a +:+ b +:+ c.
Proof.
  induction a as [|x a IH]; [done |]. by rewrite !append_cons, IH.
Qed.

Lemma prefix_spec (sub s : string) :
  String.prefix sub s = true ↔ ∃ post, s = sub +:+ post.
Proof.
  revert s. induction sub as [|a sub IH]; intros [|b s]; simpl.
  - split; [intros _; exists ""; reflexivity | reflexivity].
  - split; [intros _; exists (String b s); reflexivity | reflexivity].
  - split; [done | intros [post E]; rewrite append_cons in E; done].
  - destruct (ascii_dec a b) as [->|Hne].
    + rewrite IH. split; intros [post E]; exists post;
        rewrite append_cons in *; congruence.
    + split; [done | intros [post E]; rewrite append_cons in E; congruence].
Qed.

Lemma includes_nil (sub : string) : includes "" sub = String.prefix sub "".
Proof. simpl. apply orb_false_r. Qed.

Lemma includes_cons (c : ascii) (s sub : string) :
  includes (String c s) sub = String.prefix sub (String c s) || includes s sub.
Proof. reflexivity. Qed.

Lemma includes_spec (s sub : string) :
  includes s sub = true ↔ ∃ pre post, s = pre +:+ sub +:+ post.
Proof.
  split.
  - induction s as [|c s IH].
    + rewrite includes_nil, prefix_spec. intros [post E]. by exists "", post.
    + rewrite includes_cons, orb_true_iff, prefix_spec.
      intros [[post E]|H]; [by exists "", post |].
      destruct (IH H) as (pre & post & ->). by exists (String c pre), post.
  - intros (pre & post & ->). induction pre as [|c pre IH].
    + rewrite append_nil. destruct (sub +:+ post) eqn:E.
      * rewrite includes_nil. apply prefix_spec. by exists post.
      * rewrite includes_cons, orb_true_iff. left. apply prefix_spec. by exists post.
    + rewrite append_cons, includes_cons, IH. apply orb_true_r.
Qed.

Lemma includes_trans (s k sub : string) :
  includes k sub = true → includes s k = true → includes s sub = true.
Proof.
  rewrite !includes_spec. intros (p1 & q1 & ->) (p2 & q2 & ->).
  exists (p2 +:+ p1), (q1 +:+ q2). by rewrite !append_assoc.
Qed.

Lemma some_true {A} (p : A → bool) (l : list A) :
  some p l = true ↔ ∃ x, x ∈ l ∧ p x = true.
Proof.
  unfold some. rewrite existsb_exists.
  split; intros (x & ? & ?); exists x; by rewrite ?list_elem_of_In in *.
Qed.

Lemma some_map {A B} (p : B → bool) (f : A → B) (l : list A) :
  some (λ x, p (f x)) l = some p (map f l).
Proof. induction l as [|x l IH]; simpl; [done | by rewrite IH]. Qed.

(** ** The release classifier *)

Lemma Ret_inj {A} (a b : A) : Ret a = Ret b ↔ a = b.
Proof. split; [by intros [= ->] | by intros ->]. Qed.

Lemma isReleaseProject_releases (P : value) :
  Releases.isReleaseProject P = Ret true ↔
    truthy (prop P "archived") = false ∧
    ∃ name, prop P "name" = Str name ∧
      ∃ keyword, keyword ∈ Releases.releaseKeywords ∧
        includes (toLowerCase name) (toLowerCase keyword) = true.
Proof.
  unfold Releases.isReleaseProject, get_prop.
  destruct (nullish P) eqn:HP.
  { destruct P; try discriminate; simpl;
      (split; [done | intros (_ & name & ? & _); done]). }
  cbn [mbind outcome_bind].
  destruct (truthy (prop P "archived"));
    [unfold mret, outcome_ret; split; [done | by intros [? _]] |].
  destruct (prop P "name") as [| | | |name| |] eqn:HN;
    cbn [as_string mbind outcome_bind mret outcome_ret];
    try (split; [done | intros (_ & name' & ? & _); done]).
  rewrite Ret_inj, some_true. split.
  - intros H. split; [done |]. by exists name.
  - intros (_ & name' & E & H). by simplify_eq.
Qed.

Lemma isReleaseProject_tasks (P : value) :
  Tasks.isReleaseProject P = Ret true ↔
    ∃ name, prop P "name" = Str name ∧
      ∃ keyword, keyword ∈ Tasks.releaseKeywords ∧
        includes (toLowerCase name) (toLowerCase keyword) = true.
Proof.
  unfold Tasks.isReleaseProject, get_prop.
  destruct (nullish P) eqn:HP.
  { destruct P; try discriminate; simpl;
      (split; [done | intros (name & ? & _); done]). }
  cbn [mbind outcome_bind].
  destruct (prop P "name") as [| | | |name| |] eqn:HN;
    cbn [as_string mbind outcome_bind mret outcome_ret];
    try (split; [done | intros (name' & ? & _); done]).
  rewrite Ret_inj, some_true. split.
  - intros H. by exists name.
  - intros (name' & E & H). by simplify_eq.
Qed.

(** C2.  The classifier of the releases handler accepts a project exactly
    when it is not archived and its lower-cased name contains a lower-cased
    keyword.  The classifier of the tasks handler has the keyword test only:
    it accepts the archived project "Old Album", which the releases handler
    rejects. *)
Theorem release_classifier_archived :
  (∀ P, Releases.isReleaseProject P = Ret true ↔
     truthy (prop P "archived") = false ∧
     ∃ name, prop P "name" = Str name ∧
       ∃ keyword, keyword ∈ Releases.releaseKeywords ∧
         includes (toLowerCase name) (toLowerCase keyword) = true) ∧
  (∀ P, Tasks.isReleaseProject P = Ret true ↔
     ∃ name, prop P "name" = Str name ∧
       ∃ keyword, keyword ∈ Tasks.releaseKeywords ∧
         includes (toLowerCase name) (toLowerCase keyword) = true) ∧
  truthy (prop Sample.old_album "archived") = true ∧
  Releases.isReleaseProject Sample.old_album = Ret false ∧
  Tasks.isReleaseProject Sample.old_album = Ret true ∧
  Tasks.isReleaseProject Sample.old_album_as_listed = Ret true.
Proof.
  split; [apply isReleaseProject_releases |].
  split; [apply isReleaseProject_tasks |].
  by vm_compute.
Qed.

(** ** The two keyword lists *)

(** C9.  On every (lower-cased) name the keyword list of the releases
    handler and that of the tasks handler give the same answer, and every
    keyword of either list contains one of [release], [ep], [single],
    [album]. *)
Theorem keyword_lists_agree (s : string) :
  some (λ keyword, includes s (toLowerCase keyword)) Releases.releaseKeywords =
  some (λ keyword, includes s (toLowerCase keyword)) Tasks.releaseKeywords ∧
  Forall (λ keyword,
            some (λ base, includes (toLowerCase keyword) base)
                 ["release"; "ep"; "single"; "album"] = true)
         (Releases.releaseKeywords ++ Tasks.releaseKeywords).
Proof.
  split.
  - pose proof (includes_trans s "[ep" "ep" eq_refl).
    pose proof (includes_trans s "[single" "single" eq_refl).
    pose proof (includes_trans s "[album" "album" eq_refl).
    pose proof (includes_trans s "[release" "release" eq_refl).
    pose proof (includes_trans s "ep release" "ep" eq_refl).
    pose proof (includes_trans s "single release" "single" eq_refl).
    pose proof (includes_trans s "album release" "album" eq_refl).
    rewrite !(some_map (includes s) toLowerCase).
    let l := eval vm_compute in (map toLowerCase Releases.releaseKeywords) in
    change (map toLowerCase Releases.releaseKeywords) with l.
    let l := eval vm_compute in (map toLowerCase Tasks.releaseKeywords) in
    change (map toLowerCase Tasks.releaseKeywords) with l.
    cbn [some existsb].
    apply eq_true_iff_eq. rewrite !orb_true_iff. intuition.
  - unfold Releases.releaseKeywords, Tasks.releaseKeywords. cbn [app].
    repeat (constructor; [vm_compute; reflexivity |]). constructor.
Qed.

(** ** The due-soon filter *)

Lemma thirtyDaysFromNow_in_range (today : Z) :
  -8640000000000000 ≤ today ≤ 8640000000000000 - 30 * msPerDay →
  Tasks.thirtyDaysFromNow today = Some (today + 30 * msPerDay).
Proof.
  intros H. unfold Tasks.thirtyDaysFromNow, TimeClip, msPerDay in *.
  destruct (Z.leb_spec (Z.abs (today + 30 * 24 * 60 * 60 * 1000)) 8640000000000000);
    [f_equal; lia | lia].
Qed.

(** C1, as the code has it.  The filter compares instants: the request
    moment [today] against UTC midnight of the due date.  A task passes
    exactly when it is not completed, has a due date, and that midnight lies
    in [today, today + 30 days], both ends included. *)
Theorem upcoming_window (today : Z) (T : value) :
  -8640000000000000 ≤ today ≤ 8640000000000000 - 30 * msPerDay →
  Tasks.isUpcoming today T = Ret true ↔
    truthy (prop T "completed") = false ∧
    truthy (prop T "due_on") = true ∧
    ∃ d, task_due T = Some d ∧ today ≤ d ≤ today + 30 * msPerDay.
Proof.
  intros Hclock. unfold Tasks.isUpcoming, get_prop, task_due.
  rewrite (thirtyDaysFromNow_in_range today Hclock).
  destruct (nullish T) eqn:HT.
  { destruct T; try discriminate; cbn;
      (split; [done | intros (_ & ? & _); done]). }
  cbn [mbind outcome_bind].
  destruct (truthy (prop T "completed"));
    [unfold mret, outcome_ret; split; [done | by intros [? _]] |].
  destruct (truthy (prop T "due_on")); cbn [negb];
    [| unfold mret, outcome_ret; split; [done | by intros (_ & ? & _)]].
  unfold mret, outcome_ret. rewrite Ret_inj, andb_true_iff.
  destruct (new_Date (prop T "due_on")) as [d|]; cbn [ge le].
  - rewrite !Z.leb_le. split.
    + intros [? ?]. do 2 (split; [done |]). exists d. split; [done | lia].
    + intros (_ & _ & d' & [= <-] & ?). lia.
  - split; [by intros [? _] | by intros (_ & _ & d' & ? & _)].
Qed.

Lemma upcoming_window_witness :
  Tasks.isUpcoming Sample.noon (Sample.task "11" (Str "2024-01-05") false) = Ret true ↔
    truthy (prop (Sample.task "11" (Str "2024-01-05") false) "completed") = false ∧
    truthy (prop (Sample.task "11" (Str "2024-01-05") false) "due_on") = true ∧
    ∃ d, task_due (Sample.task "11" (Str "2024-01-05") false) = Some d ∧
         Sample.noon ≤ d ≤ Sample.noon + 30 * msPerDay.
Proof.
  apply (upcoming_window Sample.noon (Sample.task "11" (Str "2024-01-05") false)).
  unfold Sample.noon, msPerDay. lia.
Defined.

(** C1, as stated, fails: the task [due_today] is open and due on the
    calendar day of the request made at [noon], and the filter drops it. *)
Lemma due_today_left_out :
  truthy (prop Sample.due_today "completed") = false ∧
  task_due Sample.due_today = Some (UTCDay Sample.noon) ∧
  Tasks.isUpcoming Sample.noon Sample.due_today = Ret false.
Proof. by vm_compute. Qed.

(** ** The annotation of a task with its project *)

Lemma isUpcoming_Obj (today : Z) (task : value) :
  Tasks.isUpcoming today task = Ret true →
  ∃ m, task = Obj m ∧ truthy (prop task "due_on") = true ∧
       ∃ d, task_due task = Some d.
Proof.
  unfold Tasks.isUpcoming, get_prop, task_due.
  destruct task as [| | | | | |m]; try discriminate; cbn [nullish mbind outcome_bind prop].
  all: try (destruct (truthy Undefined) eqn:E; [discriminate E | by cbn]).
  destruct (truthy (default Undefined (m !! "completed"))); [done |].
  destruct (truthy (default Undefined (m !! "due_on"))); [| done].
  cbn [negb]. unfold mret, outcome_ret. rewrite Ret_inj, andb_true_iff.
  intros [H _]. exists m. do 2 (split; [done |]).
  destruct (new_Date (default Undefined (m !! "due_on"))) as [d|]; [by exists d | done].
Qed.

(** C10.  For a task that passes the due-soon filter and, like the task
    records the upstream API delivers, has no field named [project_name],
    [project_gid] or [project_due_date]: the annotated task holds every field
    of the task, unchanged, and exactly three fields more, [project_name],
    [project_gid] and [project_due_date], taken from the owning project. *)
Theorem annotation_frame (today : Z) (project task : value) :
  Tasks.isUpcoming today task = Ret true →
  dom (spread task) ## {[ "project_name"; "project_gid"; "project_due_date" ]} →
  ∃ m m' : gmap string value,
    task = Obj m ∧ Tasks.annotate project task = Obj m' ∧
    m ⊆ m' ∧
    (∀ k v, m !! k = Some v → m' !! k = Some v) ∧
    (∀ k, k ∉ ["project_name"; "project_gid"; "project_due_date"] →
          m' !! k = m !! k) ∧
    m' !! "project_name" = Some (prop project "name") ∧
    m' !! "project_gid" = Some (prop project "gid") ∧
    m' !! "project_due_date" = Some (prop project "due_date") ∧
    dom m' = dom m ∪ {[ "project_name"; "project_gid"; "project_due_date" ]} ∧
    size m' = (size m + 3)%nat.
Proof.
  intros (m & -> & _)%isUpcoming_Obj Hdisj. cbn [spread] in Hdisj.
  exists m. eexists. split; [done |]. split; [reflexivity |].
  cbn [spread].
  assert (m !! "project_name" = None) as H1 by (apply not_elem_of_dom; set_solver).
  assert (m !! "project_gid" = None) as H2 by (apply not_elem_of_dom; set_solver).
  assert (m !! "project_due_date" = None) as H3 by (apply not_elem_of_dom; set_solver).
  assert (m ⊆ <["project_due_date":=prop project "due_date"]>
                (<["project_gid":=prop project "gid"]>
                   (<["project_name":=prop project "name"]> m))) as Hsub.
  { etrans; [| apply insert_subseteq; by rewrite !lookup_insert_ne].
    etrans; [| apply insert_subseteq; by rewrite !lookup_insert_ne].
    by apply insert_subseteq. }
  split; [exact Hsub |].
  split; [intros k v Hk; by eapply lookup_weaken |].
  split; [| split; [| split; [| split; [| split]]]].
  - intros k Hk. rewrite !lookup_insert_ne; [done | | |];
      intros <-; apply Hk; set_solver.
  - rewrite lookup_insert_ne by done. rewrite lookup_insert_ne by done.
    by rewrite lookup_insert_eq.
  - rewrite lookup_insert_ne by done. by rewrite lookup_insert_eq.
  - by rewrite lookup_insert_eq.
  - rewrite !dom_insert_L. apply set_eq. intros k.
    rewrite !elem_of_union, !elem_of_singleton. tauto.
  - rewrite !map_size_insert_None; [lia | done | | ];
      by rewrite !lookup_insert_ne.
Qed.

Lemma annotation_frame_witness :
  ∃ m m' : gmap string value,
    Sample.task "11" (Str "2024-01-05") false = Obj m ∧
    Tasks.annotate Sample.summer_ep (Sample.task "11" (Str "2024-01-05") false) = Obj m' ∧
    m ⊆ m' ∧
    (∀ k v, m !! k = Some v → m' !! k = Some v) ∧
    (∀ k, k ∉ ["project_name"; "project_gid"; "project_due_date"] →
          m' !! k = m !! k) ∧
    m' !! "project_name" = Some (prop Sample.summer_ep "name") ∧
    m' !! "project_gid" = Some (prop Sample.summer_ep "gid") ∧
    m' !! "project_due_date" = Some (prop Sample.summer_ep "due_date") ∧
    dom m' = dom m ∪ {[ "project_name"; "project_gid"; "project_due_date" ]} ∧
    size m' = (size m + 3)%nat.
Proof.
  apply (annotation_frame Sample.noon).
  - vm_compute. reflexivity.
  - apply elem_of_disjoint. intros k [v Hk]%elem_of_dom Hk3.
    rewrite !elem_of_union, !elem_of_singleton in Hk3.
    destruct Hk3 as [[-> | ->] | ->]; vm_compute in Hk; discriminate.
Defined.

(** ** [sort]: a stable sort *)

Section Sort.
Context {A : Type} (comparefn : A → A → number).

Lemma insert_Permutation (x : A) (l : list A) : insert comparefn x l ≡ₚ x :: l.
Proof.
  induction l as [|y l IH]; simpl; [done |].
  destruct (0 <? SortCompare comparefn x y); [| done].
  rewrite IH. apply Permutation_swap.
Qed.

Lemma sort_Permutation (l : list A) : sort comparefn l ≡ₚ l.
Proof.
  induction l as [|x l IH]; simpl; [done |].
  by rewrite insert_Permutation, IH.
Qed.

(** Elements that the comparator never puts in the wrong order keep the
    order they came in. *)
Lemma insert_stable (p : A → bool) (x : A) (l : list A) :
  (∀ a b, p a = true → p b = true → SortCompare comparefn a b ≤ 0) →
  List.filter p (insert comparefn x l) = List.filter p (x :: l).
Proof.
  intros Htie. induction l as [|y l IH]; [done |].
  cbn [insert]. destruct (Z.ltb_spec 0 (SortCompare comparefn x y)) as [Hlt|]; [| done].
  cbn [List.filter] in *. rewrite IH.
  destruct (p x) eqn:Hx, (p y) eqn:Hy; try done.
  specialize (Htie x y Hx Hy). lia.
Qed.

Lemma sort_stable (p : A → bool) (l : list A) :
  (∀ a b, p a = true → p b = true → SortCompare comparefn a b ≤ 0) →
  List.filter p (sort comparefn l) = List.filter p l.
Proof.
  intros Htie. induction l as [|x l IH]; [done |].
  cbn [sort]. rewrite insert_stable by done. cbn [List.filter]. by rewrite IH.
Qed.

(** On a domain [P] where the comparator agrees with a transitive relation
    [R], the result is sorted by [R]. *)
Context (P : A → Prop) (R : A → A → Prop).
Hypothesis keep : ∀ x y, P x → P y → SortCompare comparefn x y ≤ 0 → R x y.
Hypothesis swap : ∀ x y, P x → P y → 0 < SortCompare comparefn x y → R y x.
Hypothesis R_trans : ∀ x y z, P x → P y → P z → R x y → R y z → R x z.

Lemma insert_sorted (x : A) (l : list A) :
  P x → Forall P l → StronglySorted R l → StronglySorted R (insert comparefn x l).
Proof.
  intros Hx. induction l as [|y l IH]; intros HP Hs; cbn [insert].
  { repeat constructor. }
  apply Forall_cons in HP as [Hy HP]. apply StronglySorted_inv in Hs as [Hs Hy_le].
  destruct (Z.ltb_spec 0 (SortCompare comparefn x y)) as [Hlt|Hle].
  - constructor; [by apply IH |].
    rewrite insert_Permutation. constructor; [by apply swap | done].
  - constructor; [by constructor |].
    assert (R x y) by by apply keep.
    constructor; [done |].
    rewrite Forall_forall in Hy_le, HP |- *. intros z Hz.
    apply (R_trans x y z); auto.
Qed.

Lemma sort_sorted (l : list A) :
  Forall P l → StronglySorted R (sort comparefn l).
Proof.
  induction l as [|x l IH]; intros HP; cbn [sort]; [constructor |].
  apply Forall_cons in HP as [Hx HP].
  apply insert_sorted; [done | by rewrite sort_Permutation | by apply IH].
Qed.
End Sort.

(** ** Running the monadic code *)

Lemma bind_run {A B} (m : M A) (f : A → M B) (s : state) :
  (m ≫= f) s =
    match m s with
    | (Ret a, s') => f a s'
    | (Throw e, s') => (Throw e, s')
    end.
Proof. reflexivity. Qed.

Lemma catch_run {A} (body : M A) (handler : exn → M A) (s : state) :
  try_catch body handler s =
    match body s with
    | (Ret a, s') => (Ret a, s')
    | (Throw e, s') => handler e s'
    end.
Proof. reflexivity. Qed.

Lemma lift_run {A} (o : outcome A) (s : state) : lift o s = (o, s).
Proof. reflexivity. Qed.

Lemma fetch_run (w : world) (url : string) (hs : list (string * string)) (s : state) :
  fetch w url hs s =
    (match upstream w url with Rejected e => Throw e | Resolved r => Ret r end,
     record [Fetch url hs] s).
Proof. unfold fetch. rewrite bind_run. cbn. by destruct (upstream w url). Qed.

Lemma status_json_run (c : Z) (v : value) (s : state) :
  status_json c v s =
    (Ret tt, {| headers := headers s; statusCode := c;
                sent := Some (Some v); trace := trace s |}).
Proof. reflexivity. Qed.

Lemma record_nil (s : state) : record [] s = s.
Proof. destruct s. unfold record. cbn. by rewrite app_nil_r. Qed.

Lemma record_record (evs1 evs2 : list event) (s : state) :
  record evs2 (record evs1 s) = record (evs1 ++ evs2) s.
Proof. unfold record. cbn. by rewrite app_assoc. Qed.

Lemma cors_prologue (k : M unit) :
  (setHeader "Access-Control-Allow-Origin" "*";;
   setHeader "Access-Control-Allow-Methods" "GET, OPTIONS";;
   setHeader "Access-Control-Allow-Headers" "Content-Type";;
   k) init = k opened.
Proof. reflexivity. Qed.

(** ** Lists: chunks, [filter] *)

Lemma chunks_step {A} (size : nat) (l : list A) :
  (0 < size)%nat → l ≠ [] →
  chunks size l = take size l :: chunks size (drop size l).
Proof.
  intros Hsize Hl. destruct l as [|x l]; [done |].
  destruct size as [|size]; [lia |]. by simp chunks.
Qed.



Lemma slice_take_drop {A} (l : list A) (i n : nat) :
  slice l i (i + n) = take n (drop i l).
Proof. unfold slice. f_equal. lia. Qed.

Lemma foldl_app_concat {A} (acc : list A) (ls : list (list A)) :
  foldl (λ acc tasks, acc ++ tasks) acc ls = acc ++ concat ls.
Proof.
  revert acc. induction ls as [|l ls IH]; intros acc; cbn [foldl concat].
  - by rewrite app_nil_r.
  - by rewrite IH, app_assoc.
Qed.


Lemma filter_Ret {A} (p : A → outcome bool) (l r : list A) :
  JS.filter p l = Ret r → Forall (λ x, p x = Ret true) r.
Proof.
  revert r. induction l as [|x l IH]; intros r; cbn [JS.filter].
  - intros [= <-]. constructor.
  - destruct (p x) as [b|e] eqn:Hx; [| done]. cbn [mbind outcome_bind].
    destruct (JS.filter p l) as [r'|e]; [| done]. cbn [mbind outcome_bind].
    unfold mret, outcome_ret. intros [= <-].
    destruct b; [constructor; [done |] |]; by apply IH.
Qed.

(** ** The batched fetcher *)

Lemma project_tasks_run (w : world) (tok project : value) (s : state) :
  Tasks.project_tasks w tok project s =
    (Ret (upcoming_of w project), record (window tok [project]) s).
Proof.
  unfold Tasks.project_tasks, try_catch, fetch, upcoming_of, upcoming, window.
  unfold mbind, M_bind, emit. cbn [map].
  destruct (upstream w _) as [e|r]; [done |].
  unfold mret at 1, M_ret.
  destruct (ok r); cbn [negb]; [| done].
  unfold lift. 
  destruct (json r) as [tasksData|e]; [| done]. cbn [mbind outcome_bind].
  destruct (get_prop tasksData "data") as [data|e]; [| done]. cbn [mbind outcome_bind].
  destruct (as_array data "filter") as [tasks|e]; [| done]. cbn [mbind outcome_bind].
  by destruct (JS.filter _ tasks).
Qed.

Lemma Promise_all_project_tasks (w : world) (tok : value) (batch : list value)
    (s : state) :
  Promise_all (map (Tasks.project_tasks w tok) batch) s =
    (Ret (map (upcoming_of w) batch), record (window tok batch) s).
Proof.
  revert s. induction batch as [|p batch IH]; intros s; cbn [map Promise_all].
  - by rewrite record_nil.
  - unfold mbind, M_bind. rewrite project_tasks_run, IH.
    by rewrite record_record.
Qed.

Lemma windows_cons (tok : value) (batch : list value) (rest : list (list value)) :
  windows tok (batch :: rest) =
    window tok batch ++
    match rest with [] => [] | _ => Sleep 100 :: windows tok rest end.
Proof. destruct rest; cbn [windows]; [by rewrite app_nil_r | done]. Qed.

Lemma batches_unfold (w : world) (tok : value) (l : list value) (i : nat)
    (acc : list value) :
  Tasks.batches w tok l i acc =
    if decide (i < length l)%nat then
      batchResults ← Promise_all
        (map (Tasks.project_tasks w tok) (slice l i (i + Tasks.batchSize)));
      (if decide (i + Tasks.batchSize < length l)%nat then sleep 100 else mret tt);;
      Tasks.batches w tok l (i + Tasks.batchSize)
        (foldl (λ acc tasks, acc ++ tasks) acc batchResults)
    else mret acc.
Proof.
  rewrite Tasks.batches_equation_1.
  destruct (decide (i < length l)%nat); reflexivity.
Qed.

Lemma batches_run (w : world) (tok : value) (l : list value) (n : nat) :
  ∀ (i : nat) (acc : list value) (s : state),
    (length l - i ≤ n)%nat →
    Tasks.batches w tok l i acc s =
      (Ret (acc ++ concat (map (upcoming_of w) (drop i l))),
       record (windows tok (chunks Tasks.batchSize (drop i l))) s).
Proof.
  induction n as [|n IH]; intros i acc s Hn; rewrite batches_unfold.
  - destruct (decide (i < length l)%nat); [lia |].
    rewrite drop_ge by lia. simp chunks. cbn. by rewrite app_nil_r, record_nil.
  - destruct (decide (i < length l)%nat) as [Hi|Hi].
    2:{ rewrite drop_ge by lia. simp chunks. cbn. by rewrite app_nil_r, record_nil. }
    unfold mbind at 1, M_bind at 1.
    rewrite slice_take_drop, Promise_all_project_tasks.
    rewrite foldl_app_concat.
    assert (drop i l ≠ []) as Hne.
    { intros E. apply (f_equal length) in E. rewrite length_drop in E. cbn in E. lia. }
    rewrite (chunks_step Tasks.batchSize (drop i l)) by (done || (unfold Tasks.batchSize; lia)).
    rewrite windows_cons, drop_drop.
    assert (concat (map (upcoming_of w) (drop i l)) =
            concat (map (upcoming_of w) (take Tasks.batchSize (drop i l))) ++
            concat (map (upcoming_of w) (drop (i + Tasks.batchSize) l))) as ->.
    { by rewrite <- concat_app, <- map_app, <- (drop_drop l), take_drop. }
    rewrite app_assoc.
    unfold mbind, M_bind.
    destruct (decide (i + Tasks.batchSize < length l)%nat) as [Hmore|Hlast].
    + unfold sleep, emit. rewrite IH by (unfold Tasks.batchSize; lia).
      rewrite !record_record. do 2 f_equal.
      destruct (chunks Tasks.batchSize (drop (i + Tasks.batchSize) l)) eqn:E; [| done].
      exfalso. revert E.
      rewrite chunks_step; [done | unfold Tasks.batchSize; lia |].
      intros E'. apply (f_equal length) in E'. rewrite length_drop in E'. cbn in E'. lia.
    + unfold mret at 1, M_ret. rewrite IH by (unfold Tasks.batchSize; lia).
      rewrite record_record. rewrite (drop_ge l (i + Tasks.batchSize)) by lia.
      by simp chunks.
Qed.

(** ** The batched fetcher: the callbacks of a window, suspended and resumed *)























(** ** The handlers, run *)

Lemma listed_unfold (isRelease : value → outcome bool) (r : response) :
  listed isRelease r =
    (projectsData ← json r;
     data ← get_prop projectsData "data";
     projects ← as_array data "filter";
     JS.filter isRelease projects).
Proof. reflexivity. Qed.

Lemma tasks_try_body_unconfigured (w : world) (s : state) :
  truthy (env w "ASANA_TOKEN") = false ∨ truthy (env w "ASANA_WORKSPACE_ID") = false →
  Tasks.try_body w s = (Throw (Error "Missing environment variables"), s).
Proof.
  intros H. unfold Tasks.try_body.
  destruct H as [-> | ->]; [done | by rewrite orb_true_r].
Qed.

Lemma tasks_try_body_run (w : world) (s : state) :
  let tok := env w "ASANA_TOKEN" in
  let url := Tasks.projects_url (env w "ASANA_WORKSPACE_ID") in
  truthy tok = true → truthy (env w "ASANA_WORKSPACE_ID") = true →
  Tasks.try_body w s =
    match upstream w url with
    | Rejected e => (Throw e, record [Fetch url (Tasks.request_headers tok)] s)
    | Resolved r =>
        if ok r then
          match listed Tasks.isReleaseProject r with
          | Ret rps =>
              (Ret tt,
               {| headers := headers s; statusCode := 200;
                  sent := Some (Some (tasks_success w
                            (sort Tasks.compare (concat (map (upcoming_of w) rps)))
                            (length rps)));
                  trace := trace s ++ Fetch url (Tasks.request_headers tok)
                             :: windows tok (chunks Tasks.batchSize rps) |})
          | Throw e => (Throw e, record [Fetch url (Tasks.request_headers tok)] s)
          end
        else (Throw (Error ("Asana API error: " +:+ pretty (status r))),
              record [Fetch url (Tasks.request_headers tok)] s)
    end.
Proof.
  intros tok url Htok Hws. unfold Tasks.try_body.
  fold tok url. rewrite Htok, Hws. cbn [negb orb].
  rewrite bind_run, fetch_run.
  destruct (upstream w url) as [e|r]; [done |].
  destruct (ok r); cbn [negb]; [| done].
  rewrite listed_unfold, bind_run, lift_run.
  destruct (json r) as [projectsData|e]; [| done]. cbn [mbind outcome_bind].
  rewrite bind_run, lift_run.
  destruct (get_prop projectsData "data") as [data|e]; [| done]. cbn [mbind outcome_bind].
  rewrite bind_run, lift_run.
  destruct (as_array data "filter") as [projects|e]; [| done]. cbn [mbind outcome_bind].
  rewrite bind_run, lift_run.
  destruct (JS.filter Tasks.isReleaseProject projects) as [rps|e]; [| done].
  rewrite bind_run, (batches_run w tok rps (length rps)) by lia.
  rewrite drop_0, app_nil_l, status_json_run.
  unfold record, tasks_success. cbn [headers statusCode sent trace].
  by rewrite <- app_assoc.
Qed.

Lemma releases_try_body_unconfigured (w : world) (s : state) :
  truthy (env w "ASANA_TOKEN") = false ∨ truthy (env w "ASANA_WORKSPACE_ID") = false →
  Releases.try_body w s = (Throw (Error "Missing environment variables"), s).
Proof.
  intros H. unfold Releases.try_body.
  destruct H as [-> | ->]; [done | by rewrite orb_true_r].
Qed.

Lemma releases_try_body_run (w : world) (s : state) :
  let tok := env w "ASANA_TOKEN" in
  let url := Releases.projects_url (env w "ASANA_WORKSPACE_ID") in
  truthy tok = true → truthy (env w "ASANA_WORKSPACE_ID") = true →
  Releases.try_body w s =
    match upstream w url with
    | Rejected e => (Throw e, record [Fetch url (Releases.request_headers tok)] s)
    | Resolved r =>
        if ok r then
          match listed Releases.isReleaseProject r with
          | Ret rps =>
              (Ret tt,
               {| headers := headers s; statusCode := 200;
                  sent := Some (Some (releases_success w (sort Releases.compare rps)));
                  trace := trace s ++ [Fetch url (Releases.request_headers tok)] |})
          | Throw e => (Throw e, record [Fetch url (Releases.request_headers tok)] s)
          end
        else (Throw (Error ("Asana API error: " +:+ pretty (status r) +:+ " " +:+
                            statusText r)),
              record [Fetch url (Releases.request_headers tok)] s)
    end.
Proof.
  intros tok url Htok Hws. unfold Releases.try_body.
  fold tok url. rewrite Htok, Hws. cbn [negb orb].
  rewrite bind_run, fetch_run.
  destruct (upstream w url) as [e|r]; [done |].
  destruct (ok r); cbn [negb]; [| done].
  rewrite listed_unfold, bind_run, lift_run.
  destruct (json r) as [projectsData|e]; [| done]. cbn [mbind outcome_bind].
  rewrite bind_run, lift_run.
  destruct (get_prop projectsData "data") as [data|e]; [| done]. cbn [mbind outcome_bind].
  rewrite bind_run, lift_run.
  destruct (as_array data "filter") as [projects|e]; [| done]. cbn [mbind outcome_bind].
  rewrite bind_run, lift_run.
  destruct (JS.filter Releases.isReleaseProject projects) as [rps|e]; [| done].
  by rewrite status_json_run.
Qed.

Lemma tasks_handler_run (w : world) (req : request) :
  run (Tasks.handler w req) =
    if String.eqb (method req) "OPTIONS" then responded 200 None []
    else if negb (String.eqb (method req) "GET")
    then responded 405 (Some (Obj {[ "error" := Str "Method not allowed" ]})) []
    else match Tasks.try_body w opened with
         | (Ret _, s) => s
         | (Throw e, s) =>
             {| headers := headers s; statusCode := 500;
                sent := Some (Some (failure w (message e))); trace := trace s |}
         end.
Proof.
  unfold run, Tasks.handler. rewrite cors_prologue.
  destruct (String.eqb (method req) "OPTIONS"); [reflexivity |].
  destruct (negb (String.eqb (method req) "GET")); [reflexivity |].
  rewrite catch_run.
  destruct (Tasks.try_body w opened) as [[[]|e] s]; reflexivity.
Qed.

Lemma releases_handler_run (w : world) (req : request) :
  run (Releases.handler w req) =
    if String.eqb (method req) "OPTIONS" then responded 200 None []
    else if negb (String.eqb (method req) "GET")
    then responded 405 (Some (Obj {[ "error" := Str "Method not allowed" ]})) []
    else match Releases.try_body w opened with
         | (Ret _, s) => s
         | (Throw e, s) =>
             {| headers := headers s; statusCode := 500;
                sent := Some (Some (failure w (message e))); trace := trace s |}
         end.
Proof.
  unfold run, Releases.handler. rewrite cors_prologue.
  destruct (String.eqb (method req) "OPTIONS"); [reflexivity |].
  destruct (negb (String.eqb (method req) "GET")); [reflexivity |].
  rewrite catch_run.
  destruct (Releases.try_body w opened) as [[[]|e] s]; reflexivity.
Qed.

(** ** The order of the release list *)




(** ** Method dispatch and configuration *)

(** C8.  Both handlers look at the method before anything else is read: an
    OPTIONS request is answered 200 with no body and no outgoing call; a
    method other than GET and OPTIONS is answered 405 with no outgoing call;
    and for any method but GET the response does not depend on the
    configuration, the upstream API or the clock.  (The three CORS headers
    are on every response.) *)
Theorem method_dispatch (w : world) (req : request) :
  (method req = "OPTIONS" →
     run (Releases.handler w req) = responded 200 None [] ∧
     run (Tasks.handler w req) = responded 200 None []) ∧
  (method req ≠ "OPTIONS" → method req ≠ "GET" →
     run (Releases.handler w req) =
       responded 405 (Some (Obj {[ "error" := Str "Method not allowed" ]})) [] ∧
     run (Tasks.handler w req) =
       responded 405 (Some (Obj {[ "error" := Str "Method not allowed" ]})) []) ∧
  (method req ≠ "GET" → ∀ w',
     run (Releases.handler w' req) = run (Releases.handler w req) ∧
     run (Tasks.handler w' req) = run (Tasks.handler w req)).
Proof.
  rewrite !releases_handler_run, !tasks_handler_run.
  split; [| split].
  - intros ->. by cbn.
  - intros H1%String.eqb_neq H2%String.eqb_neq. by rewrite H1, H2.
  - intros H%String.eqb_neq w'.
    rewrite !releases_handler_run, !tasks_handler_run, H. cbn [negb].
    by destruct (String.eqb (method req) "OPTIONS").
Qed.

Lemma method_dispatch_witness :
  run (Releases.handler Sample.workspace {| method := "OPTIONS" |}) = responded 200 None [] ∧
  run (Tasks.handler Sample.workspace {| method := "OPTIONS" |}) = responded 200 None [].
Proof.
  exact (proj1 (method_dispatch Sample.workspace {| method := "OPTIONS" |}) eq_refl).
Defined.

(** C7.  When the token or the workspace identifier is missing (undefined or
    empty), a GET request to either handler is answered 500 with
    [success: false] and the error "Missing environment variables", and no
    request is sent upstream. *)
Theorem unconfigured_is_500 (w : world) (req : request) :
  method req = "GET" →
  truthy (env w "ASANA_TOKEN") = false ∨ truthy (env w "ASANA_WORKSPACE_ID") = false →
  run (Releases.handler w req) =
    responded 500 (Some (failure w "Missing environment variables")) [] ∧
  run (Tasks.handler w req) =
    responded 500 (Some (failure w "Missing environment variables")) [] ∧
  prop (failure w "Missing environment variables") "success" = Bool false ∧
  prop (failure w "Missing environment variables") "error" =
    Str "Missing environment variables".
Proof.
  intros Hget Henv.
  rewrite releases_handler_run, tasks_handler_run, Hget.
  rewrite releases_try_body_unconfigured, tasks_try_body_unconfigured by done.
  by cbn.
Qed.

Lemma unconfigured_is_500_witness :
  run (Releases.handler Sample.unconfigured Sample.GET) =
    responded 500 (Some (failure Sample.unconfigured "Missing environment variables")) [] ∧
  run (Tasks.handler Sample.unconfigured Sample.GET) =
    responded 500 (Some (failure Sample.unconfigured "Missing environment variables")) [] ∧
  prop (failure Sample.unconfigured "Missing environment variables") "success" = Bool false ∧
  prop (failure Sample.unconfigured "Missing environment variables") "error" =
    Str "Missing environment variables".
Proof.
  apply (unconfigured_is_500 Sample.unconfigured Sample.GET);
    [reflexivity | right; reflexivity].
Defined.

(** ** Failures of the upstream API *)

Lemma task_fetch_fails_nothing (w : world) (project : value) :
  task_fetch_fails w project → upcoming_of w project = [].
Proof.
  unfold task_fetch_fails, upcoming_of.
  destruct (upstream w _) as [e|r]; [done |].
  intros [-> | [e ->]]; [done |]. by destruct (ok r).
Qed.

(** C3.  In the tasks handler a task fetch that fails for one project
    yields the empty list for that project and nothing else: once the
    project list was fetched, the response is 200 and lists the upcoming
    tasks of all release projects, a failed project contributing none.  A
    project list answered with a status outside 200..299 makes the response
    500 with [success: false]. *)
Theorem task_fetch_failure_is_local (w : world) (req : request) (r : response) :
  method req = "GET" →
  truthy (env w "ASANA_TOKEN") = true →
  truthy (env w "ASANA_WORKSPACE_ID") = true →
  upstream w (Tasks.projects_url (env w "ASANA_WORKSPACE_ID")) = Resolved r →
  (∀ project s, task_fetch_fails w project →
     Tasks.project_tasks w (env w "ASANA_TOKEN") project s =
       (Ret [], record (window (env w "ASANA_TOKEN") [project]) s)) ∧
  (∀ releaseProjects,
     ok r = true → listed Tasks.isReleaseProject r = Ret releaseProjects →
     run (Tasks.handler w req) =
       responded 200
         (Some (tasks_success w
            (sort Tasks.compare (concat (map (upcoming_of w) releaseProjects)))
            (length releaseProjects)))
         (Fetch (Tasks.projects_url (env w "ASANA_WORKSPACE_ID"))
                (Tasks.request_headers (env w "ASANA_TOKEN"))
            :: windows (env w "ASANA_TOKEN") (chunks 5 releaseProjects)) ∧
     ∀ project, task_fetch_fails w project → upcoming_of w project = []) ∧
  (ok r = false →
     run (Tasks.handler w req) =
       responded 500
         (Some (failure w ("Asana API error: " +:+ pretty (status r))))
         [Fetch (Tasks.projects_url (env w "ASANA_WORKSPACE_ID"))
                (Tasks.request_headers (env w "ASANA_TOKEN"))] ∧
     prop (failure w ("Asana API error: " +:+ pretty (status r))) "success" = Bool false).
Proof.
  intros Hget Htok Hws Hup.
  split; [| split].
  - intros project s Hfail.
    by rewrite project_tasks_run, task_fetch_fails_nothing.
  - intros rps Hok Hlisted. split; [| apply task_fetch_fails_nothing].
    rewrite tasks_handler_run, Hget. cbn [String.eqb Ascii.eqb Bool.eqb negb].
    rewrite tasks_try_body_run by done.
    by rewrite Hup, Hok, Hlisted.
  - intros Hok. split; [| reflexivity].
    rewrite tasks_handler_run, Hget. cbn [String.eqb Ascii.eqb Bool.eqb negb].
    rewrite tasks_try_body_run by done.
    by rewrite Hup, Hok.
Qed.

Lemma task_fetch_failure_is_local_witness :
  run (Tasks.handler Sample.refused Sample.GET) =
    responded 500
      (Some (failure Sample.refused "Asana API error: 401"))
      [Fetch (Tasks.projects_url (env Sample.refused "ASANA_WORKSPACE_ID"))
             (Tasks.request_headers (env Sample.refused "ASANA_TOKEN"))] ∧
  task_fetch_fails Sample.workspace Sample.winter_single ∧
  upcoming_of Sample.workspace Sample.winter_single = [] ∧
  run (Tasks.handler Sample.workspace Sample.GET) =
    responded 200
      (Some (tasks_success Sample.workspace
         (sort Tasks.compare
            (concat (map (upcoming_of Sample.workspace)
                         [Sample.summer_ep; Sample.winter_single])))
         2))
      (Fetch (Tasks.projects_url (env Sample.workspace "ASANA_WORKSPACE_ID"))
             (Tasks.request_headers (env Sample.workspace "ASANA_TOKEN"))
         :: windows (env Sample.workspace "ASANA_TOKEN")
              (chunks 5 [Sample.summer_ep; Sample.winter_single])).
Proof.
  assert (task_fetch_fails Sample.workspace Sample.winter_single) as Hfail.
  { vm_compute. left. reflexivity. }
  destruct (task_fetch_failure_is_local Sample.workspace Sample.GET
              {| status := 200; statusText := "OK";
                 json := Ret (Sample.data [Sample.summer_ep; Sample.website;
                                           Sample.winter_single]) |})
    as (_ & H & _); [reflexivity | reflexivity | reflexivity | reflexivity |].
  destruct (H [Sample.summer_ep; Sample.winter_single]) as [Hrun Hnone];
    [reflexivity | vm_compute; reflexivity |].
  destruct (task_fetch_failure_is_local Sample.refused Sample.GET
              {| status := 401; statusText := "Unauthorized";
                 json := Throw (SyntaxError "Unexpected end of JSON input") |})
    as (_ & _ & H500); [reflexivity | reflexivity | reflexivity | reflexivity |].
  split; [exact (proj1 (H500 eq_refl)) |].
  split; [exact Hfail |]. split; [exact (Hnone _ Hfail) | exact Hrun].
Defined.

(** ** The order of the task list *)

Lemma annotate_due_on (project : value) (m : gmap string value) :
  prop (Tasks.annotate project (Obj m)) "due_on" = prop (Obj m) "due_on".
Proof.
  unfold Tasks.annotate. cbn [prop spread].
  by rewrite !lookup_insert_ne by done.
Qed.

Lemma upcoming_of_due (w : world) (project : value) :
  Forall (λ t, truthy (prop t "due_on") = true ∧ is_Some (task_due t))
         (upcoming_of w project).
Proof.
  unfold upcoming_of, upcoming.
  destruct (upstream w _) as [e|r]; [constructor |].
  destruct (ok r); [| constructor].
  destruct (json r) as [tasksData|e]; [| constructor]. cbn [mbind outcome_bind].
  destruct (get_prop tasksData "data") as [data|e]; [| constructor]. cbn [mbind outcome_bind].
  destruct (as_array data "filter") as [tasks|e]; [| constructor]. cbn [mbind outcome_bind].
  destruct (JS.filter _ tasks) as [upcomingTasks|e] eqn:Hf; [| constructor].
  apply filter_Ret in Hf. apply Forall_map.
  eapply Forall_impl; [exact Hf |].
  intros t (m & -> & Hdue & d & Hd)%isUpcoming_Obj.
  unfold task_due in *. rewrite annotate_due_on. eauto.
Qed.

Lemma tasks_compare_sorts (l : list value) :
  Forall (λ t, is_Some (task_due t)) l →
  StronglySorted task_le (sort Tasks.compare l).
Proof.
  apply (sort_sorted Tasks.compare (λ t, is_Some (task_due t)) task_le).
  - intros x y [dx Hx] [dy Hy]. unfold SortCompare, Tasks.compare, task_le, task_due in *.
    rewrite Hx, Hy. cbn. lia.
  - intros x y [dx Hx] [dy Hy]. unfold SortCompare, Tasks.compare, task_le, task_due in *.
    rewrite Hx, Hy. cbn. lia.
  - intros x y z [dx Hx] [dy Hy] [dz Hz]. unfold task_le.
    rewrite Hx, Hy, Hz. cbn. lia.
Qed.

(** C6.  Every task in the list the tasks handler returns has a due date
    that is a date, and the list is in ascending order of due date; tasks
    due 2024-01-05 and 2024-01-02 come out as 2024-01-02, 2024-01-05. *)
Theorem tasks_dated_and_sorted (w : world) (req : request) (body : value)
    (tasks : list value) :
  sent (run (Tasks.handler w req)) = Some (Some body) →
  prop body "tasks" = Arr tasks →
  Forall (λ t, truthy (prop t "due_on") = true ∧ is_Some (task_due t)) tasks ∧
  StronglySorted task_le tasks ∧
  sort Tasks.compare
    [ Sample.task "11" (Str "2024-01-05") false;
      Sample.task "12" (Str "2024-01-02") false ] =
    [ Sample.task "12" (Str "2024-01-02") false;
      Sample.task "11" (Str "2024-01-05") false ].
Proof.
  intros Hsent Htasks.
  assert (∃ rps, tasks = sort Tasks.compare (concat (map (upcoming_of w) rps)))
    as [rps ->].
  { rewrite tasks_handler_run in Hsent.
    destruct (String.eqb (method req) "OPTIONS"); [done |].
    destruct (negb (String.eqb (method req) "GET")).
    { injection Hsent as <-. done. }
    destruct (truthy (env w "ASANA_TOKEN")) eqn:Htok;
      [| rewrite tasks_try_body_unconfigured in Hsent by auto;
         injection Hsent as <-; done].
    destruct (truthy (env w "ASANA_WORKSPACE_ID")) eqn:Hws;
      [| rewrite tasks_try_body_unconfigured in Hsent by auto;
         injection Hsent as <-; done].
    rewrite tasks_try_body_run in Hsent by done.
    destruct (upstream w _) as [e|r]; [injection Hsent as <-; done |].
    destruct (ok r); [| injection Hsent as <-; done].
    destruct (listed Tasks.isReleaseProject r) as [rps|e];
      [| injection Hsent as <-; done].
    injection Hsent as <-. injection Htasks as <-. by exists rps. }
  assert (Forall (λ t, truthy (prop t "due_on") = true ∧ is_Some (task_due t))
                 (concat (map (upcoming_of w) rps))) as Hall.
  { apply Forall_concat, Forall_map, Forall_forall. intros p _. apply upcoming_of_due. }
  split; [by rewrite sort_Permutation |].
  split; [| by vm_compute].
  apply tasks_compare_sorts. eapply Forall_impl; [exact Hall |]. by intros t [_ ?].
Qed.

Lemma tasks_dated_and_sorted_witness :
  StronglySorted task_le
    (sort Tasks.compare
       (concat (map (upcoming_of Sample.workspace)
                    [Sample.summer_ep; Sample.winter_single]))).
Proof.
  apply (tasks_dated_and_sorted Sample.workspace Sample.GET
           (tasks_success Sample.workspace
              (sort Tasks.compare
                 (concat (map (upcoming_of Sample.workspace)
                              [Sample.summer_ep; Sample.winter_single])))
              2)).
  - vm_compute. reflexivity.
  - reflexivity.
Defined.

(** * Further statements *)

(** ** [filter], read as a list filter *)


Lemma filter_Ret_readable {A} (p : A → outcome bool) (l r : list A) :
  JS.filter p l = Ret r → Forall (readable p) l ∧ r = List.filter (passes p) l.
Proof.
  revert r. induction l as [|x l IH]; intros r; cbn [JS.filter List.filter].
  - intros [= <-]. by split.
  - destruct (p x) as [b|e] eqn:Hx; [| done]. cbn [mbind outcome_bind].
    destruct (JS.filter p l) as [r'|e]; [| done]. cbn [mbind outcome_bind].
    unfold mret, outcome_ret. intros [= <-].
    destruct (IH r' eq_refl) as [Hall ->].
    split; [constructor; [by exists b | done] |].
    assert (passes p x = b) as -> by (unfold passes; rewrite Hx; by destruct b).
    by destruct b.
Qed.

Lemma filter_unreadable {A} (p : A → outcome bool) (l : list A) (x : A) (e : exn) :
  x ∈ l → p x = Throw e → ∃ e', JS.filter p l = Throw e'.
Proof.
  intros Hin Hx. destruct (JS.filter p l) as [r|e'] eqn:Hf; [| by exists e'].
  apply filter_Ret_readable in Hf as [Hall _].
  rewrite Forall_forall in Hall. destruct (Hall x Hin) as [b Hb]. congruence.
Qed.

(** ** The shapes of a response *)

Lemma tasks_handler_returns (w : world) (req : request) :
  (Tasks.handler w req init).1 = Ret tt.
Proof.
  unfold Tasks.handler. rewrite cors_prologue.
  destruct (String.eqb (method req) "OPTIONS"); [reflexivity |].
  destruct (negb (String.eqb (method req) "GET")); [reflexivity |].
  rewrite catch_run.
  destruct (Tasks.try_body w opened) as [[[]|e] s]; reflexivity.
Qed.

Lemma releases_handler_returns (w : world) (req : request) :
  (Releases.handler w req init).1 = Ret tt.
Proof.
  unfold Releases.handler. rewrite cors_prologue.
  destruct (String.eqb (method req) "OPTIONS"); [reflexivity |].
  destruct (negb (String.eqb (method req) "GET")); [reflexivity |].
  rewrite catch_run.
  destruct (Releases.try_body w opened) as [[[]|e] s]; reflexivity.
Qed.

Lemma tasks_handler_outcome (w : world) (req : request) :
  tasks_outcome w req (run (Tasks.handler w req)).
Proof.
  rewrite tasks_handler_run.
  destruct (String.eqb_spec (method req) "OPTIONS") as [Ho|Ho]; [by constructor |].
  destruct (String.eqb_spec (method req) "GET") as [Hg|Hg]; cbn [negb];
    [| by constructor].
  destruct (truthy (env w "ASANA_TOKEN")) eqn:Htok;
    [| rewrite tasks_try_body_unconfigured by auto; apply tasks_unconfigured; auto].
  destruct (truthy (env w "ASANA_WORKSPACE_ID")) eqn:Hws;
    [| rewrite tasks_try_body_unconfigured by auto; apply tasks_unconfigured; auto].
  rewrite tasks_try_body_run by done.
  destruct (upstream w _) as [e|r] eqn:Hup; [by apply (tasks_failed w req e) |].
  destruct (ok r) eqn:Hok; [| by apply (tasks_failed w req (Error _))].
  destruct (listed Tasks.isReleaseProject r) as [rps|e] eqn:Hl;
    [| by apply (tasks_failed w req e)].
  by apply (tasks_listed w req r rps).
Qed.

Lemma releases_handler_outcome (w : world) (req : request) :
  releases_outcome w req (run (Releases.handler w req)).
Proof.
  rewrite releases_handler_run.
  destruct (String.eqb_spec (method req) "OPTIONS") as [Ho|Ho]; [by constructor |].
  destruct (String.eqb_spec (method req) "GET") as [Hg|Hg]; cbn [negb];
    [| by constructor].
  destruct (truthy (env w "ASANA_TOKEN")) eqn:Htok;
    [| rewrite releases_try_body_unconfigured by auto;
       apply releases_unconfigured; auto].
  destruct (truthy (env w "ASANA_WORKSPACE_ID")) eqn:Hws;
    [| rewrite releases_try_body_unconfigured by auto;
       apply releases_unconfigured; auto].
  rewrite releases_try_body_run by done.
  destruct (upstream w _) as [e|r] eqn:Hup; [by apply (releases_failed w req e) |].
  destruct (ok r) eqn:Hok; [| by apply (releases_failed w req (Error _))].
  destruct (listed Releases.isReleaseProject r) as [rps|e] eqn:Hl;
    [| by apply (releases_failed w req e)].
  by apply (releases_listed w req r rps).
Qed.

(** X1.  Whatever the method, the configuration and the answers of the
    upstream API, the response of either handler carries the three CORS
    headers, with any origin allowed, and no other header set by the
    handler. *)
Theorem cors_on_every_response (w : world) (req : request) :
  headers (run (Releases.handler w req)) = cors_headers ∧
  headers (run (Tasks.handler w req)) = cors_headers ∧
  cors_headers !! "Access-Control-Allow-Origin" = Some "*" ∧
  cors_headers !! "Access-Control-Allow-Methods" = Some "GET, OPTIONS" ∧
  cors_headers !! "Access-Control-Allow-Headers" = Some "Content-Type" ∧
  size cors_headers = 3%nat.
Proof.
  split; [by destruct (releases_handler_outcome w req) |].
  split; [by destruct (tasks_handler_outcome w req) |].
  by vm_compute.
Qed.

(** X2.  Neither handler lets an error escape or leaves a request
    unanswered: the handler returns, a response was sent, its status is 200,
    405 or 500, and it has a JSON body unless the request was a preflight.  *)
Theorem always_answers (w : world) (req : request) :
  (Releases.handler w req init).1 = Ret tt ∧
  (Tasks.handler w req init).1 = Ret tt ∧
  (∃ body, sent (run (Releases.handler w req)) = Some body ∧
           (body = None ↔ method req = "OPTIONS")) ∧
  (∃ body, sent (run (Tasks.handler w req)) = Some body ∧
           (body = None ↔ method req = "OPTIONS")) ∧
  statusCode (run (Releases.handler w req)) ∈ [200; 405; 500] ∧
  statusCode (run (Tasks.handler w req)) ∈ [200; 405; 500].
Proof.
  split; [apply releases_handler_returns |].
  split; [apply tasks_handler_returns |].
  split; [| split; [| split]].
  - destruct (releases_handler_outcome w req) as [Ho|Ho Hg|Hg _|e Hg _ _|r rps Hg];
      (eexists; split; [reflexivity |]); split; try done; intros; congruence.
  - destruct (tasks_handler_outcome w req) as [Ho|Ho Hg|Hg _|e Hg _ _|r rps Hg];
      (eexists; split; [reflexivity |]); split; try done; intros; congruence.
  - destruct (releases_handler_outcome w req); cbn; rewrite !elem_of_cons; auto.
  - destruct (tasks_handler_outcome w req); cbn; rewrite !elem_of_cons; auto.
Qed.

(** ** Failures of the project list *)

(** X3.  In the releases handler a configured GET request whose one upstream
    request is rejected, answered with a status outside 200..299, or answered
    with a body that cannot be read as a list of projects, gets 500 with the
    message of the error; for a bad status the message is
    "Asana API error: <status> <status text>". *)
Theorem releases_failures (w : world) (req : request) :
  method req = "GET" →
  truthy (env w "ASANA_TOKEN") = true →
  truthy (env w "ASANA_WORKSPACE_ID") = true →
  (∀ e, upstream w (Releases.projects_url (env w "ASANA_WORKSPACE_ID")) = Rejected e →
     run (Releases.handler w req) =
       responded 500 (Some (failure w (message e)))
         [Fetch (Releases.projects_url (env w "ASANA_WORKSPACE_ID"))
                (Releases.request_headers (env w "ASANA_TOKEN"))]) ∧
  (∀ r, upstream w (Releases.projects_url (env w "ASANA_WORKSPACE_ID")) = Resolved r →
     ok r = false →
     run (Releases.handler w req) =
       responded 500
         (Some (failure w ("Asana API error: " +:+ pretty (status r) +:+ " " +:+
                           statusText r)))
         [Fetch (Releases.projects_url (env w "ASANA_WORKSPACE_ID"))
                (Releases.request_headers (env w "ASANA_TOKEN"))]) ∧
  (∀ r e, upstream w (Releases.projects_url (env w "ASANA_WORKSPACE_ID")) = Resolved r →
     ok r = true →
     listed Releases.isReleaseProject r = Throw e →
     run (Releases.handler w req) =
       responded 500 (Some (failure w (message e)))
         [Fetch (Releases.projects_url (env w "ASANA_WORKSPACE_ID"))
                (Releases.request_headers (env w "ASANA_TOKEN"))]).
Proof.
  intros Hget Htok Hws.
  rewrite releases_handler_run, Hget. cbn [String.eqb Ascii.eqb Bool.eqb negb].
  rewrite releases_try_body_run by done.
  split; [| split].
  - by intros e ->.
  - by intros r -> ->.
  - by intros r e -> -> ->.
Qed.

Lemma releases_failures_witness :
  run (Releases.handler Cases.offline Sample.GET) =
    responded 500 (Some (failure Cases.offline "fetch failed"))
      [Fetch (Releases.projects_url (env Cases.offline "ASANA_WORKSPACE_ID"))
             (Releases.request_headers (env Cases.offline "ASANA_TOKEN"))] ∧
  run (Releases.handler Sample.refused Sample.GET) =
    responded 500 (Some (failure Sample.refused "Asana API error: 401 Unauthorized"))
      [Fetch (Releases.projects_url (env Sample.refused "ASANA_WORKSPACE_ID"))
             (Releases.request_headers (env Sample.refused "ASANA_TOKEN"))].
Proof.
  split.
  - exact (proj1 (releases_failures Cases.offline Sample.GET
                    eq_refl eq_refl eq_refl) (TypeError "fetch failed") eq_refl).
  - exact (proj1 (proj2 (releases_failures Sample.refused Sample.GET
                           eq_refl eq_refl eq_refl)) _ eq_refl eq_refl).
Defined.

(** X4.  In the tasks handler a configured GET request whose project list is
    rejected, or answered with a body that cannot be read as a list of
    projects, gets 500 with the message of the error, and no task request
    and no pause follows the one request for the project list. *)
Theorem tasks_project_list_failures (w : world) (req : request) :
  method req = "GET" →
  truthy (env w "ASANA_TOKEN") = true →
  truthy (env w "ASANA_WORKSPACE_ID") = true →
  (∀ e, upstream w (Tasks.projects_url (env w "ASANA_WORKSPACE_ID")) = Rejected e →
     run (Tasks.handler w req) =
       responded 500 (Some (failure w (message e)))
         [Fetch (Tasks.projects_url (env w "ASANA_WORKSPACE_ID"))
                (Tasks.request_headers (env w "ASANA_TOKEN"))]) ∧
  (∀ r e, upstream w (Tasks.projects_url (env w "ASANA_WORKSPACE_ID")) = Resolved r →
     ok r = true →
     listed Tasks.isReleaseProject r = Throw e →
     run (Tasks.handler w req) =
       responded 500 (Some (failure w (message e)))
         [Fetch (Tasks.projects_url (env w "ASANA_WORKSPACE_ID"))
                (Tasks.request_headers (env w "ASANA_TOKEN"))]).
Proof.
  intros Hget Htok Hws.
  rewrite tasks_handler_run, Hget. cbn [String.eqb Ascii.eqb Bool.eqb negb].
  rewrite tasks_try_body_run by done.
  split.
  - by intros e ->.
  - by intros r e -> -> ->.
Qed.

Lemma tasks_project_list_failures_witness :
  run (Tasks.handler Cases.offline Sample.GET) =
    responded 500 (Some (failure Cases.offline "fetch failed"))
      [Fetch (Tasks.projects_url (env Cases.offline "ASANA_WORKSPACE_ID"))
             (Tasks.request_headers (env Cases.offline "ASANA_TOKEN"))].
Proof.
  exact (proj1 (tasks_project_list_failures Cases.offline Sample.GET
                  eq_refl eq_refl eq_refl) (TypeError "fetch failed") eq_refl).
Defined.

(** ** Entries the classifiers cannot read *)

Lemma releases_classifier_throws (P : value) :
  (∃ e, Releases.isReleaseProject P = Throw e) ↔
    truthy (prop P "archived") = false ∧ unnamed P.
Proof.
  unfold Releases.isReleaseProject, get_prop, unnamed.
  destruct (nullish P) eqn:HP.
  { destruct P; try discriminate; cbn; (split; [by intros _ | by eexists]). }
  cbn [mbind outcome_bind].
  destruct (truthy (prop P "archived")).
  { unfold mret, outcome_ret. split; [by intros [e ?] | by intros [? _]]. }
  destruct (prop P "name") as [| | | |name| |] eqn:HN;
    cbn [as_string mbind outcome_bind mret outcome_ret];
    try (split; [by intros _ | by eexists]).
  split; [by intros [e ?] | intros [_ H]; by destruct (H name)].
Qed.

Lemma tasks_classifier_throws (P : value) :
  (∃ e, Tasks.isReleaseProject P = Throw e) ↔ unnamed P.
Proof.
  unfold Tasks.isReleaseProject, get_prop, unnamed.
  destruct (nullish P) eqn:HP.
  { destruct P; try discriminate; cbn; (split; [by intros _ | by eexists]). }
  cbn [mbind outcome_bind].
  destruct (prop P "name") as [| | | |name| |] eqn:HN;
    cbn [as_string mbind outcome_bind mret outcome_ret];
    try (split; [by intros _ | by eexists]).
  split; [by intros [e ?] | intros H; by destruct (H name)].
Qed.

(** X5.  The classifier of the tasks handler throws exactly on an entry
    whose name is not a string (a [null] entry included); that of the
    releases handler throws exactly on such an entry that is not archived,
    and answers [false] for an archived one whatever its name. *)
Theorem classifier_throws (P : value) :
  ((∃ e, Tasks.isReleaseProject P = Throw e) ↔ unnamed P) ∧
  ((∃ e, Releases.isReleaseProject P = Throw e) ↔
     truthy (prop P "archived") = false ∧ unnamed P) ∧
  (truthy (prop P "archived") = true → Releases.isReleaseProject P = Ret false).
Proof.
  split; [apply tasks_classifier_throws |].
  split; [apply releases_classifier_throws |].
  intros H. unfold Releases.isReleaseProject, get_prop.
  destruct P; try discriminate H; cbn [nullish mbind outcome_bind].
  by rewrite H.
Qed.

Lemma classifier_throws_witness :
  Releases.isReleaseProject Sample.old_album = Ret false.
Proof.
  apply (classifier_throws Sample.old_album). reflexivity.
Defined.

Lemma listed_unreadable (p : value → outcome bool) (r : response)
    (body P : value) (projects : list value) (e : exn) :
  json r = Ret body → get_prop body "data" = Ret (Arr projects) →
  P ∈ projects → p P = Throw e →
  ∃ e', listed p r = Throw e'.
Proof.
  intros Hj Hd Hin HP. unfold listed. rewrite Hj. cbn [mbind outcome_bind].
  rewrite Hd. cbn [mbind outcome_bind as_array].
  by apply (filter_unreadable p projects P e).
Qed.

(** X6.  One project without a name in the project list fails the whole
    request: the tasks handler answers 500 after the one request for the
    list, and so does the releases handler unless that project is
    archived. *)
Theorem unnamed_project_fails_request (w : world) (req : request)
    (r : response) (body P : value) (projects : list value) :
  method req = "GET" →
  truthy (env w "ASANA_TOKEN") = true →
  truthy (env w "ASANA_WORKSPACE_ID") = true →
  ok r = true →
  json r = Ret body →
  get_prop body "data" = Ret (Arr projects) →
  P ∈ projects →
  unnamed P →
  (upstream w (Tasks.projects_url (env w "ASANA_WORKSPACE_ID")) = Resolved r →
     statusCode (run (Tasks.handler w req)) = 500 ∧
     trace (run (Tasks.handler w req)) =
       [Fetch (Tasks.projects_url (env w "ASANA_WORKSPACE_ID"))
              (Tasks.request_headers (env w "ASANA_TOKEN"))]) ∧
  (upstream w (Releases.projects_url (env w "ASANA_WORKSPACE_ID")) = Resolved r →
     truthy (prop P "archived") = false →
     statusCode (run (Releases.handler w req)) = 500 ∧
     trace (run (Releases.handler w req)) =
       [Fetch (Releases.projects_url (env w "ASANA_WORKSPACE_ID"))
              (Releases.request_headers (env w "ASANA_TOKEN"))]).
Proof.
  intros Hget Htok Hws Hok Hj Hd Hin HP. split.
  - intros Hup.
    destruct (proj2 (tasks_classifier_throws P) HP) as [e He].
    destruct (listed_unreadable _ r body P projects e Hj Hd Hin He) as [e' He'].
    rewrite tasks_handler_run, Hget. cbn [String.eqb Ascii.eqb Bool.eqb negb].
    rewrite tasks_try_body_run by done. by rewrite Hup, Hok, He'.
  - intros Hup Harch.
    destruct (proj2 (releases_classifier_throws P) (conj Harch HP)) as [e He].
    destruct (listed_unreadable _ r body P projects e Hj Hd Hin He) as [e' He'].
    rewrite releases_handler_run, Hget. cbn [String.eqb Ascii.eqb Bool.eqb negb].
    rewrite releases_try_body_run by done. by rewrite Hup, Hok, He'.
Qed.

Lemma unnamed_project_fails_request_witness :
  statusCode (run (Tasks.handler Cases.with_nameless Sample.GET)) = 500 ∧
  statusCode (run (Releases.handler Cases.with_nameless Sample.GET)) = 500.
Proof.
  destruct (unnamed_project_fails_request Cases.with_nameless Sample.GET
              {| status := 200; statusText := "OK";
                 json := Ret (Sample.data [Sample.summer_ep; Cases.nameless]) |}
              (Sample.data [Sample.summer_ep; Cases.nameless]) Cases.nameless
              [Sample.summer_ep; Cases.nameless])
    as [Ht Hr]; try reflexivity.
  - apply elem_of_cons. right. apply elem_of_cons. by left.
  - intros s. vm_compute. discriminate.
  - split; [apply Ht | apply Hr]; reflexivity.
Defined.

(** ** What the responses hold *)

Lemma tasks_response_inv (w : world) (req : request) (body : value)
    (tasks : list value) :
  sent (run (Tasks.handler w req)) = Some (Some body) →
  prop body "tasks" = Arr tasks →
  ∃ r rps,
    upstream w (Tasks.projects_url (env w "ASANA_WORKSPACE_ID")) = Resolved r ∧
    ok r = true ∧
    listed Tasks.isReleaseProject r = Ret rps ∧
    tasks = sort Tasks.compare (concat (map (upcoming_of w) rps)) ∧
    body = tasks_success w tasks (length rps) ∧
    statusCode (run (Tasks.handler w req)) = 200.
Proof.
  intros Hsent Htasks. pose proof (tasks_handler_outcome w req) as H.
  inversion H as [?|? ?|? ?|e ? ? ?|r rps ? ? ? Hup Hok Hl];
    match goal with E : _ = run _ |- _ => rewrite <- E in * end;
    cbn [sent responded] in Hsent; try done;
    injection Hsent as <-; try done.
  injection Htasks as <-. by exists r, rps.
Qed.

Lemma releases_response_inv (w : world) (req : request) (body : value)
    (projects : list value) :
  sent (run (Releases.handler w req)) = Some (Some body) →
  prop body "projects" = Arr projects →
  ∃ r rps,
    upstream w (Releases.projects_url (env w "ASANA_WORKSPACE_ID")) = Resolved r ∧
    ok r = true ∧
    listed Releases.isReleaseProject r = Ret rps ∧
    projects = sort Releases.compare rps ∧
    body = releases_success w projects ∧
    statusCode (run (Releases.handler w req)) = 200.
Proof.
  intros Hsent Hps. pose proof (releases_handler_outcome w req) as H.
  inversion H as [?|? ?|? ?|e ? ? ?|r rps ? ? ? Hup Hok Hl];
    match goal with E : _ = run _ |- _ => rewrite <- E in * end;
    cbn [sent responded] in Hsent; try done;
    injection Hsent as <-; try done.
  injection Hps as <-. by exists r, rps.
Qed.

Lemma listed_Ret (p : value → outcome bool) (r : response) (rps : list value) :
  listed p r = Ret rps →
  ∃ body projects,
    json r = Ret body ∧ get_prop body "data" = Ret (Arr projects) ∧
    Forall (readable p) projects ∧ rps = List.filter (passes p) projects.
Proof.
  unfold listed. destruct (json r) as [body|e] eqn:Hj; [| done].
  cbn [mbind outcome_bind].
  destruct (get_prop body "data") as [data|e] eqn:Hd; [| done].
  cbn [mbind outcome_bind].
  destruct data; cbn [as_array mbind outcome_bind]; try done.
  intros [? ?]%filter_Ret_readable. eexists _, _. repeat split; eauto.
Qed.

Lemma passes_true {A} (p : A → outcome bool) (x : A) :
  passes p x = true ↔ p x = Ret true.
Proof. unfold passes. destruct (p x) as [[]|]; split; done. Qed.



(** X8.  The [success] flag of a JSON body agrees with the status: a 200
    body has [success: true] and no [error]; a 500 body has [success: false]
    and an [error] string; both carry the timestamp.  A 405 body has the
    [error] "Method not allowed" and neither a [success] flag nor a
    timestamp. *)
Theorem status_matches_body (w : world) (req : request) (body : value) :
  (sent (run (Releases.handler w req)) = Some (Some body) →
     (statusCode (run (Releases.handler w req)) = 200 ∧
      prop body "success" = Bool true ∧ prop body "error" = Undefined ∧
      prop body "timestamp" = Str (timestamp w)) ∨
     (statusCode (run (Releases.handler w req)) = 500 ∧
      prop body "success" = Bool false ∧ (∃ msg, prop body "error" = Str msg) ∧
      prop body "timestamp" = Str (timestamp w)) ∨
     (statusCode (run (Releases.handler w req)) = 405 ∧
      prop body "success" = Undefined ∧
      prop body "error" = Str "Method not allowed" ∧
      prop body "timestamp" = Undefined)) ∧
  (sent (run (Tasks.handler w req)) = Some (Some body) →
     (statusCode (run (Tasks.handler w req)) = 200 ∧
      prop body "success" = Bool true ∧ prop body "error" = Undefined ∧
      prop body "timestamp" = Str (timestamp w)) ∨
     (statusCode (run (Tasks.handler w req)) = 500 ∧
      prop body "success" = Bool false ∧ (∃ msg, prop body "error" = Str msg) ∧
      prop body "timestamp" = Str (timestamp w)) ∨
     (statusCode (run (Tasks.handler w req)) = 405 ∧
      prop body "success" = Undefined ∧
      prop body "error" = Str "Method not allowed" ∧
      prop body "timestamp" = Undefined)).
Proof.
  split.
  - destruct (releases_handler_outcome w req); cbn [sent responded statusCode];
      intros [= <-].
    + right; right. by repeat split.
    + right; left. repeat split; by eauto.
    + right; left. repeat split; by eauto.
    + left. by repeat split.
  - destruct (tasks_handler_outcome w req); cbn [sent responded statusCode];
      intros [= <-].
    + right; right. by repeat split.
    + right; left. repeat split; by eauto.
    + right; left. repeat split; by eauto.
    + left. by repeat split.
Qed.

Lemma status_matches_body_witness :
  statusCode (run (Tasks.handler Sample.refused Sample.GET)) = 500 ∧
  prop (failure Sample.refused "Asana API error: 401") "success" = Bool false.
Proof.
  destruct (proj2 (status_matches_body Sample.refused Sample.GET
                     (failure Sample.refused "Asana API error: 401")) eq_refl)
    as [(H & _)|[(H1 & H2 & _)|(H & _)]];
    [discriminate H | exact (conj H1 H2) | discriminate H].
Defined.

(** X9.  In a response that lists tasks, [count] is the number of tasks
    listed and [projects_processed] the number of release projects, those
    whose task request failed included; the tasks listed are those the
    release projects contribute, none added or lost.  In a response that
    lists projects, [count] is the number of projects listed. *)
Theorem envelope_counts (w : world) (req : request) (body : value)
    (items : list value) :
  (sent (run (Tasks.handler w req)) = Some (Some body) →
   prop body "tasks" = Arr items →
   prop body "count" = Num (Z.of_nat (length items)) ∧
   ∃ r releaseProjects,
     upstream w (Tasks.projects_url (env w "ASANA_WORKSPACE_ID")) = Resolved r ∧
     listed Tasks.isReleaseProject r = Ret releaseProjects ∧
     prop body "projects_processed" = Num (Z.of_nat (length releaseProjects)) ∧
     items ≡ₚ concat (map (upcoming_of w) releaseProjects)) ∧
  (sent (run (Releases.handler w req)) = Some (Some body) →
   prop body "projects" = Arr items →
   prop body "count" = Num (Z.of_nat (length items))).
Proof.
  split.
  - intros Hsent Htasks.
    destruct (tasks_response_inv w req body items Hsent Htasks)
      as (r & rps & Hup & _ & Hl & -> & -> & _).
    split; [reflexivity |]. exists r, rps.
    split; [done |]. split; [done |]. split; [reflexivity | apply sort_Permutation].
  - intros Hsent Hps.
    destruct (releases_response_inv w req body items Hsent Hps)
      as (r & rps & _ & _ & _ & -> & -> & _).
    reflexivity.
Qed.

Lemma envelope_counts_witness :
  prop (tasks_success Sample.workspace
          (sort Tasks.compare
             (concat (map (upcoming_of Sample.workspace)
                          [Sample.summer_ep; Sample.winter_single]))) 2)
       "count" = Num 2.
Proof.
  destruct (proj1 (envelope_counts Sample.workspace Sample.GET
           (tasks_success Sample.workspace
              (sort Tasks.compare
                 (concat (map (upcoming_of Sample.workspace)
                              [Sample.summer_ep; Sample.winter_single]))) 2)
           (sort Tasks.compare
              (concat (map (upcoming_of Sample.workspace)
                           [Sample.summer_ep; Sample.winter_single])))))
    as [H _].
  - vm_compute. reflexivity.
  - reflexivity.
  - exact H.
Defined.

(** ** The tasks that are returned *)

Lemma annotate_completed (project : value) (m : gmap string value) :
  prop (Tasks.annotate project (Obj m)) "completed" = prop (Obj m) "completed".
Proof.
  unfold Tasks.annotate. cbn [prop spread].
  by rewrite !lookup_insert_ne by done.
Qed.

Lemma annotate_isUpcoming (today : Z) (project : value) (m : gmap string value) :
  Tasks.isUpcoming today (Tasks.annotate project (Obj m)) =
  Tasks.isUpcoming today (Obj m).
Proof.
  unfold Tasks.isUpcoming, get_prop.
  rewrite annotate_completed, annotate_due_on. reflexivity.
Qed.

Lemma annotate_project_fields (project task : value) :
  prop (Tasks.annotate project task) "project_name" = prop project "name" ∧
  prop (Tasks.annotate project task) "project_gid" = prop project "gid" ∧
  prop (Tasks.annotate project task) "project_due_date" = prop project "due_date".
Proof.
  unfold Tasks.annotate. cbn [prop]. repeat split.
  - rewrite lookup_insert_ne by done. rewrite lookup_insert_ne by done.
    by rewrite lookup_insert_eq.
  - rewrite lookup_insert_ne by done. by rewrite lookup_insert_eq.
  - by rewrite lookup_insert_eq.
Qed.

Lemma upcoming_of_elem (w : world) (project t : value) :
  t ∈ upcoming_of w project →
  ∃ t0, t = Tasks.annotate project t0 ∧ Tasks.isUpcoming (today w) t0 = Ret true.
Proof.
  unfold upcoming_of, upcoming.
  destruct (upstream w _) as [e|r]; [by intros ?%elem_of_nil |].
  destruct (ok r); [| by intros ?%elem_of_nil].
  destruct (json r) as [tasksData|e]; [| by intros ?%elem_of_nil].
  cbn [mbind outcome_bind].
  destruct (get_prop tasksData "data") as [data|e]; [| by intros ?%elem_of_nil].
  cbn [mbind outcome_bind].
  destruct (as_array data "filter") as [tasks|e]; [| by intros ?%elem_of_nil].
  cbn [mbind outcome_bind].
  destruct (JS.filter _ tasks) as [upcomingTasks|e] eqn:Hf; [| by intros ?%elem_of_nil].
  apply filter_Ret in Hf. rewrite Forall_forall in Hf.
  intros (t0 & <- & Hin)%list_elem_of_In%in_map_iff.
  exists t0. split; [done |]. apply Hf. by apply list_elem_of_In.
Qed.

(** X10.  Every task the tasks handler returns passes the due-soon filter
    as it is returned (so it is neither completed nor due outside the
    window) and carries the name, identifier and due date of a project that
    the classifier accepted. *)
Theorem returned_tasks (w : world) (req : request) (body t : value)
    (tasks : list value) :
  sent (run (Tasks.handler w req)) = Some (Some body) →
  prop body "tasks" = Arr tasks →
  t ∈ tasks →
  Tasks.isUpcoming (today w) t = Ret true ∧
  ∃ project,
    Tasks.isReleaseProject project = Ret true ∧
    prop t "project_name" = prop project "name" ∧
    prop t "project_gid" = prop project "gid" ∧
    prop t "project_due_date" = prop project "due_date".
Proof.
  intros Hsent Htasks Hin.
  destruct (tasks_response_inv w req body tasks Hsent Htasks)
    as (r & rps & _ & _ & Hl & -> & _ & _).
  rewrite sort_Permutation in Hin.
  apply list_elem_of_In, in_concat in Hin as (ts & Hts & Ht).
  apply in_map_iff in Hts as (project & <- & Hp).
  apply list_elem_of_In, upcoming_of_elem in Ht as (t0 & -> & Ht0).
  split.
  - destruct (isUpcoming_Obj _ _ Ht0) as (m & -> & _).
    by rewrite annotate_isUpcoming.
  - exists project. split; [| apply annotate_project_fields].
    destruct (listed_Ret _ _ _ Hl) as (b & ps & _ & _ & _ & ->).
    apply filter_In in Hp as [_ Hp]. by apply passes_true.
Qed.

Lemma returned_tasks_witness :
  Tasks.isUpcoming (today Sample.workspace)
    (Tasks.annotate Sample.summer_ep (Sample.task "12" (Str "2024-01-02") false))
    = Ret true.
Proof.
  apply (returned_tasks Sample.workspace Sample.GET
           (tasks_success Sample.workspace
              (sort Tasks.compare
                 (concat (map (upcoming_of Sample.workspace)
                              [Sample.summer_ep; Sample.winter_single]))) 2)
           (Tasks.annotate Sample.summer_ep (Sample.task "12" (Str "2024-01-02") false))
           (sort Tasks.compare
              (concat (map (upcoming_of Sample.workspace)
                           [Sample.summer_ep; Sample.winter_single])))).
  - vm_compute. reflexivity.
  - reflexivity.
  - vm_compute. apply elem_of_cons. by left.
Defined.

(** X11.  Tasks that are due at the same instant are returned in the order
    in which they were gathered: by release project in the order of the
    project list, and within a project in the order of its task list. *)
Theorem same_day_tasks_keep_order (w : world) (req : request) (body : value)
    (tasks : list value) (d : Z) :
  sent (run (Tasks.handler w req)) = Some (Some body) →
  prop body "tasks" = Arr tasks →
  ∃ r releaseProjects,
    upstream w (Tasks.projects_url (env w "ASANA_WORKSPACE_ID")) = Resolved r ∧
    listed Tasks.isReleaseProject r = Ret releaseProjects ∧
    List.filter (due_at d) tasks =
      List.filter (due_at d) (concat (map (upcoming_of w) releaseProjects)).
Proof.
  intros Hsent Htasks.
  destruct (tasks_response_inv w req body tasks Hsent Htasks)
    as (r & rps & Hup & _ & Hl & -> & _ & _).
  exists r, rps. split; [done |]. split; [done |].
  apply sort_stable. intros a b Ha%bool_decide_eq_true Hb%bool_decide_eq_true.
  unfold SortCompare, Tasks.compare, task_due in *. rewrite Ha, Hb. cbn. lia.
Qed.

Lemma same_day_tasks_keep_order_witness :
  List.filter (due_at 1704758400000)
    (sort Tasks.compare (upcoming_of Cases.same_day_workspace Sample.summer_ep)) =
  [ Tasks.annotate Sample.summer_ep (Sample.task "41" (Str "2024-01-09") false);
    Tasks.annotate Sample.summer_ep (Sample.task "43" (Str "2024-01-09") false) ].
Proof.
  destruct (same_day_tasks_keep_order Cases.same_day_workspace Sample.GET
              (tasks_success Cases.same_day_workspace
                 (sort Tasks.compare
                    (upcoming_of Cases.same_day_workspace Sample.summer_ep)) 1)
              (sort Tasks.compare
                 (upcoming_of Cases.same_day_workspace Sample.summer_ep))
              1704758400000)
    as (r & rps & Hup & Hl & H).
  - vm_compute. reflexivity.
  - reflexivity.
  - rewrite H. injection Hup as <-. injection Hl as <-. vm_compute. reflexivity.
Defined.

(** ** The requests that are sent *)







Lemma authorised_window (w : world) (batch : list value) :
  truthy (env w "ASANA_TOKEN") = true →
  Forall (authorised w) (window (env w "ASANA_TOKEN") batch).
Proof.
  intros Htok. unfold window. apply Forall_map, Forall_forall. intros p _.
  cbn [authorised]. split; [done |]. split; [| reflexivity].
  apply prefix_spec. eexists. reflexivity.
Qed.

Lemma authorised_windows (w : world) (batches : list (list value)) :
  truthy (env w "ASANA_TOKEN") = true →
  Forall (authorised w) (windows (env w "ASANA_TOKEN") batches).
Proof.
  intros Htok. induction batches as [|b rest IH]; [constructor |].
  rewrite windows_cons. apply Forall_app. split; [by apply authorised_window |].
  destruct rest; [constructor |]. by constructor.
Qed.

Lemma authorised_project_list (w : world) :
  truthy (env w "ASANA_TOKEN") = true →
  authorised w (Fetch (Releases.projects_url (env w "ASANA_WORKSPACE_ID"))
                      (Releases.request_headers (env w "ASANA_TOKEN"))) ∧
  authorised w (Fetch (Tasks.projects_url (env w "ASANA_WORKSPACE_ID"))
                      (Tasks.request_headers (env w "ASANA_TOKEN"))).
Proof.
  intros Htok. split; (split; [done |]); (split; [| reflexivity]);
    apply prefix_spec; eexists; reflexivity.
Qed.

(** X13.  Every request either handler sends goes to the projects API of
    Asana and carries the configured bearer token (which is then not empty)
    and the JSON content type; the only other thing a handler does towards
    the outside is to pause for 100ms. *)
Theorem requests_are_authorised (w : world) (req : request) :
  Forall (authorised w) (trace (run (Releases.handler w req))) ∧
  Forall (authorised w) (trace (run (Tasks.handler w req))).
Proof.
  split.
  - destruct (releases_handler_outcome w req); cbn [trace responded];
      try (by apply Forall_nil);
      apply Forall_singleton; by apply authorised_project_list.
  - destruct (tasks_handler_outcome w req); cbn [trace responded];
      try (by apply Forall_nil).
    + apply Forall_singleton. by apply authorised_project_list.
    + apply Forall_cons. split; [by apply authorised_project_list |].
      by apply authorised_windows.
Qed.

(** ** What one project contributes *)





(** ** The keyword test, once more *)

Lemma toLowerCase_app (a b : string) :
  toLowerCase (a +:+ b) = toLowerCase a +:+ toLowerCase b.
Proof.
  induction a as [|c a IH]; [done |].
  rewrite append_cons. cbn [toLowerCase]. by rewrite IH, append_cons.
Qed.

Lemma includes_embedded (pre s post sub : string) :
  includes s sub = true → includes (pre +:+ s +:+ post) sub = true.
Proof.
  rewrite !includes_spec. intros (p & q & ->).
  exists (pre +:+ p), (q +:+ post). by rewrite !append_assoc.
Qed.

(** X15.  The keyword test looks for the keyword anywhere in the name: a
    name that contains an accepted name, with any text before and after it,
    is accepted too, by either classifier (for the releases handler as long
    as the project is not archived). *)
Theorem classifier_accepts_longer_names (P P' : value) (name pre post : string) :
  prop P "name" = Str name →
  prop P' "name" = Str (pre +:+ name +:+ post) →
  (Tasks.isReleaseProject P = Ret true → Tasks.isReleaseProject P' = Ret true) ∧
  (Releases.isReleaseProject P = Ret true →
   truthy (prop P' "archived") = false →
   Releases.isReleaseProject P' = Ret true).
Proof.
  intros HP HP'. split.
  - rewrite !isReleaseProject_tasks, HP, HP'.
    intros (n & [= <-] & k & Hk & Hin). eexists. split; [done |].
    exists k. split; [done |]. rewrite !toLowerCase_app. by apply includes_embedded.
  - rewrite !isReleaseProject_releases, HP, HP'.
    intros (_ & n & [= <-] & k & Hk & Hin) Harch. split; [done |].
    eexists. split; [done |].
    exists k. split; [done |]. rewrite !toLowerCase_app. by apply includes_embedded.
Qed.

Lemma classifier_accepts_longer_names_witness :
  Tasks.isReleaseProject (Sample.project "8" "Deep Dive" Null false) = Ret true.
Proof.
  apply (classifier_accepts_longer_names (Sample.project "7" "ep" Null false)
           (Sample.project "8" "Deep Dive" Null false) "ep" "De" " Dive");
    reflexivity.
Defined.

Lemma keywords_four (s : string) (keywords : list string) :
  keywords = Releases.releaseKeywords ∨ keywords = Tasks.releaseKeywords →
  some (λ keyword, includes s (toLowerCase keyword)) keywords =
    includes s "release" || includes s "ep" || includes s "single" ||
    includes s "album".
Proof.
  pose proof (includes_trans s "[ep" "ep" eq_refl).
  pose proof (includes_trans s "[single" "single" eq_refl).
  pose proof (includes_trans s "[album" "album" eq_refl).
  pose proof (includes_trans s "[release" "release" eq_refl).
  pose proof (includes_trans s "ep release" "ep" eq_refl).
  pose proof (includes_trans s "single release" "single" eq_refl).
  pose proof (includes_trans s "album release" "album" eq_refl).
  rewrite (some_map (includes s) toLowerCase).
  intros [-> | ->].
  - let l := eval vm_compute in (map toLowerCase Releases.releaseKeywords) in
    change (map toLowerCase Releases.releaseKeywords) with l.
    cbn [some existsb].
    apply eq_true_iff_eq. rewrite !orb_true_iff. intuition discriminate.
  - let l := eval vm_compute in (map toLowerCase Tasks.releaseKeywords) in
    change (map toLowerCase Tasks.releaseKeywords) with l.
    cbn [some existsb].
    apply eq_true_iff_eq. rewrite !orb_true_iff. intuition discriminate.
Qed.

(** X16.  Of the keywords only four matter: either classifier accepts a
    name exactly when its lower-cased form contains [release], [ep],
    [single] or [album]; the bracketed and the capitalised keywords add
    nothing. *)
Theorem four_keywords_decide (P : value) :
  (Tasks.isReleaseProject P = Ret true ↔
     ∃ name, prop P "name" = Str name ∧
       includes (toLowerCase name) "release" || includes (toLowerCase name) "ep" ||
       includes (toLowerCase name) "single" || includes (toLowerCase name) "album"
       = true) ∧
  (Releases.isReleaseProject P = Ret true ↔
     truthy (prop P "archived") = false ∧
     ∃ name, prop P "name" = Str name ∧
       includes (toLowerCase name) "release" || includes (toLowerCase name) "ep" ||
       includes (toLowerCase name) "single" || includes (toLowerCase name) "album"
       = true).
Proof.
  split.
  - rewrite isReleaseProject_tasks. split.
    + intros (name & HN & Hk). exists name. split; [done |].
      rewrite <- (keywords_four _ Tasks.releaseKeywords) by auto. by apply some_true.
    + intros (name & HN & Hk). exists name. split; [done |].
      rewrite <- (keywords_four _ Tasks.releaseKeywords) in Hk by auto.
      by apply some_true in Hk.
  - rewrite isReleaseProject_releases. split.
    + intros (Ha & name & HN & Hk). split; [done |]. exists name. split; [done |].
      rewrite <- (keywords_four _ Releases.releaseKeywords) by auto. by apply some_true.
    + intros (Ha & name & HN & Hk). split; [done |]. exists name. split; [done |].
      rewrite <- (keywords_four _ Releases.releaseKeywords) in Hk by auto.
      by apply some_true in Hk.
Qed.

(** ** The window, in calendar days *)

Lemma isUpcoming_true (today : Z) (T : value) :
  Tasks.isUpcoming today T = Ret true ↔
    truthy (prop T "completed") = false ∧
    truthy (prop T "due_on") = true ∧
    ∃ d t30, task_due T = Some d ∧ Tasks.thirtyDaysFromNow today = Some t30 ∧
             today ≤ d ≤ t30.
Proof.
  unfold Tasks.isUpcoming, get_prop, task_due.
  destruct (nullish T) eqn:HT.
  { destruct T; try discriminate; cbn;
      (split; [done | intros (_ & ? & _); done]). }
  cbn [mbind outcome_bind].
  destruct (truthy (prop T "completed"));
    [unfold mret, outcome_ret; split; [done | by intros [? _]] |].
  destruct (truthy (prop T "due_on")); cbn [negb];
    [| unfold mret, outcome_ret; split; [done | by intros (_ & ? & _)]].
  unfold mret, outcome_ret. rewrite Ret_inj, andb_true_iff.
  destruct (new_Date (prop T "due_on")) as [d|],
    (Tasks.thirtyDaysFromNow today) as [t30|]; cbn [ge le].
  - rewrite !Z.leb_le. split.
    + intros [? ?]. do 2 (split; [done |]). exists d, t30. by repeat split.
    + intros (_ & _ & d' & t' & [= <-] & [= <-] & ?). lia.
  - split; [by intros [_ ?] | by intros (_ & _ & d' & t' & _ & ? & _)].
  - split; [by intros [? _] | by intros (_ & _ & d' & t' & ? & _)].
  - split; [by intros [? _] | by intros (_ & _ & d' & t' & ? & _)].
Qed.

Lemma date_only_parse (s : string) :
  date_only s = true →
  ∃ y m d, Date_parse s = Some (MakeDate y m d) ∧ s ≠ "".
Proof.
  intros H. unfold date_only in H. unfold Date_parse.
  repeat (case_match; try discriminate; simplify_option_eq; eauto).
Qed.

(** X17.  For a due date given as a calendar date in the form [YYYY-MM-DD],
    in calendar terms: an open task passes the filter exactly when its due
    day lies 1 to 30 days after the UTC day of the request, or when it is
    due at the very instant of the request (the request is made at UTC
    midnight of the due day).  A task due on the day of the request
    otherwise does not pass, and a task due 31 days ahead never does. *)
Theorem upcoming_by_calendar_day (today : Z) (T : value) (s : string) :
  -8640000000000000 ≤ today ≤ 8640000000000000 - 30 * msPerDay →
  prop T "due_on" = Str s →
  date_only s = true →
  Tasks.isUpcoming today T = Ret true ↔
    truthy (prop T "completed") = false ∧
    ∃ d, Date_parse s = Some d ∧ d mod msPerDay = 0 ∧
         (1 ≤ d / msPerDay - today / msPerDay ≤ 30 ∨ d = today).
Proof.
  intros Hclock Hs Hdate. rewrite isUpcoming_true.
  rewrite (thirtyDaysFromNow_in_range today Hclock).
  unfold task_due. rewrite Hs. cbn [new_Date truthy].
  destruct (date_only_parse s Hdate) as (y & m & dd & Hparse & Hne).
  assert (MakeDate y m dd mod msPerDay = 0) as Hm.
  { unfold MakeDate. apply Z.mod_mul. unfold msPerDay. lia. }
  rewrite Hparse. split.
  - intros (Hc & _ & d & t30 & [= <-] & [= <-] & Hle). split; [done |].
    eexists. split; [done |]. split; [done |].
    unfold msPerDay in *. Z.to_euclidean_division_equations. lia.
  - intros (Hc & d & [= <-] & _ & Hk). split; [done |].
    split. { destruct s; [done | reflexivity]. }
    eexists _, (today + 30 * msPerDay). do 2 (split; [done |]).
    unfold msPerDay in *. Z.to_euclidean_division_equations. lia.
Qed.

Lemma upcoming_by_calendar_day_witness :
  Tasks.isUpcoming Sample.noon (Sample.task "12" (Str "2024-01-02") false) = Ret true ↔
    truthy (prop (Sample.task "12" (Str "2024-01-02") false) "completed") = false ∧
    ∃ d, Date_parse "2024-01-02" = Some d ∧ d mod msPerDay = 0 ∧
         (1 ≤ d / msPerDay - Sample.noon / msPerDay ≤ 30 ∨ d = Sample.noon).
Proof.
  apply (upcoming_by_calendar_day Sample.noon
           (Sample.task "12" (Str "2024-01-02") false) "2024-01-02").
  - unfold Sample.noon, msPerDay. lia.
  - reflexivity.
  - reflexivity.
Defined.



(** X19.  When the project list is read and holds no release project, the
    tasks handler answers 200 with an empty task list, [count] 0 and
    [projects_processed] 0 after its one request, without any task request
    or pause; the releases handler answers 200 with an empty list and
    [count] 0. *)
Theorem no_release_projects (w : world) (req : request) (r : response) :
  method req = "GET" →
  truthy (env w "ASANA_TOKEN") = true →
  truthy (env w "ASANA_WORKSPACE_ID") = true →
  ok r = true →
  (upstream w (Tasks.projects_url (env w "ASANA_WORKSPACE_ID")) = Resolved r →
   listed Tasks.isReleaseProject r = Ret [] →
   run (Tasks.handler w req) =
     responded 200 (Some (tasks_success w [] 0))
       [Fetch (Tasks.projects_url (env w "ASANA_WORKSPACE_ID"))
              (Tasks.request_headers (env w "ASANA_TOKEN"))] ∧
   prop (tasks_success w [] 0) "tasks" = Arr [] ∧
   prop (tasks_success w [] 0) "count" = Num 0 ∧
   prop (tasks_success w [] 0) "projects_processed" = Num 0) ∧
  (upstream w (Releases.projects_url (env w "ASANA_WORKSPACE_ID")) = Resolved r →
   listed Releases.isReleaseProject r = Ret [] →
   run (Releases.handler w req) =
     responded 200 (Some (releases_success w []))
       [Fetch (Releases.projects_url (env w "ASANA_WORKSPACE_ID"))
              (Releases.request_headers (env w "ASANA_TOKEN"))] ∧
   prop (releases_success w []) "projects" = Arr [] ∧
   prop (releases_success w []) "count" = Num 0).
Proof.
  intros Hget Htok Hws Hok. split.
  - intros Hup Hl. split; [| done].
    rewrite tasks_handler_run, Hget. cbn [String.eqb Ascii.eqb Bool.eqb negb].
    rewrite tasks_try_body_run by done. rewrite Hup, Hok, Hl.
    by simp chunks.
  - intros Hup Hl. split; [| done].
    rewrite releases_handler_run, Hget. cbn [String.eqb Ascii.eqb Bool.eqb negb].
    rewrite releases_try_body_run by done. by rewrite Hup, Hok, Hl.
Qed.

Lemma no_release_projects_witness :
  run (Tasks.handler Cases.empty_workspace Sample.GET) =
    responded 200 (Some (tasks_success Cases.empty_workspace [] 0))
      [Fetch (Tasks.projects_url (env Cases.empty_workspace "ASANA_WORKSPACE_ID"))
             (Tasks.request_headers (env Cases.empty_workspace "ASANA_TOKEN"))].
Proof.
  apply (no_release_projects Cases.empty_workspace Sample.GET
           {| status := 200; statusText := "OK";
              json := Ret (Sample.data [Sample.website]) |}); reflexivity.
Defined.
